(** * PersonalAiChatBoT: the audio-delivery pipeline of [app.py]

    A shallow embedding of the request handlers of [src/app.py] and of
    the helpers they call, followed by the properties of the
    specification that concern them.

    Python values are modelled as follows.
    - [str] is [string], one character of the string standing for one
      character of the Python string; [len] is [String.length],
      [s[:n]] is [substring 0 n s].
    - [bytes] is [list byte]; a bytes object is truthy iff it is not
      empty.
    - An exception is a value of [exn]; code that may raise lives in
      the monad [M], whose computations thread the process state and
      end in a value or in a raised exception.  [try_except] is
      [try: ... except Exception as e: ...].
    - The outside world (the two speech providers, the conversational
      model, the speech recogniser, the file system) is an oracle
      [World]: the answer of a call may depend on its argument and on
      how many calls were made before it, so that every sequence of
      provider behaviours is covered.  Every outside call also has a
      latency, which advances a logical clock counted in seconds.
    - Requests are handled one after the other; the one place where
      the code starts a worker thread, the executor of
      [chat_endpoint], is modelled by futures over the logical clock. *)

From Stdlib Require Import List String Ascii Arith Lia Bool NArith.
From Stdlib Require Import Strings.Byte Decimal DecimalString.
Import ListNotations.
Open Scope list_scope.
Open Scope string_scope.

Set Implicit Arguments.

(** ** Python values *)

Definition bytes := list byte.

(** [if audio_data:] on a bytes object. *)
Definition bytes_truthy (b : bytes) : bool :=
  match b with [] => false | _ :: _ => true end.

(** [if audio_data:] on a value that is bytes or [None]. *)
Definition truthy (o : option bytes) : bool :=
  match o with Some b => bytes_truthy b | None => false end.

(** [str(n)] for a non-negative integer. *)
Definition str_of_nat (n : nat) : string :=
  NilEmpty.string_of_uint (Nat.to_uint n).

(** [sep.join(items)]. *)
Fixpoint join (sep : string) (items : list string) : string :=
  match items with
  | [] => ""
  | [x] => x
  | x :: rest => x ++ sep ++ join sep rest
  end.

(** [b''.join(chunks)]. *)
Definition join_bytes (chunks : list bytes) : bytes := List.concat chunks.

(** The JSON values that occur in the payloads of the routes; [JNull]
    is Python's [None]. *)
Inductive json : Type :=
| JNull
| JStr (s : string).

Definition dict (V : Type) := list (string * V).

Fixpoint dict_lookup {V} (k : string) (d : dict V) : option V :=
  match d with
  | [] => None
  | (k', v) :: rest => if String.eqb k k' then Some v else dict_lookup k rest
  end.

(** [d.get(k)] on a JSON object: [None] when the key is missing. *)
Definition dict_get (k : string) (d : dict json) : json :=
  match dict_lookup k d with Some v => v | None => JNull end.

(** ** [base64.b64encode(data).decode('utf-8')] *)

Definition b64_alphabet : string :=
  "ABCDEFGHIJKLMNOPQRSTUVWXYZabcdefghijklmnopqrstuvwxyz0123456789+/".

Definition b64_char (n : N) : ascii :=
  match String.get (N.to_nat n) b64_alphabet with
  | Some c => c
  | None => "="%char
  end.

Fixpoint b64encode (data : bytes) : string :=
  match data with
  | [] => ""
  | [a] =>
      let x := Byte.to_N a in
      String (b64_char (x / 4))
        (String (b64_char ((x mod 4) * 16)) "==")
  | [a; b] =>
      let x := Byte.to_N a in
      let y := Byte.to_N b in
      String (b64_char (x / 4))
        (String (b64_char ((x mod 4) * 16 + y / 16))
           (String (b64_char ((y mod 16) * 4)) "="))
  | a :: b :: c :: rest =>
      let x := Byte.to_N a in
      let y := Byte.to_N b in
      let z := Byte.to_N c in
      String (b64_char (x / 4))
        (String (b64_char ((x mod 4) * 16 + y / 16))
           (String (b64_char ((y mod 16) * 4 + z / 64))
              (String (b64_char (z mod 64)) (b64encode rest))))
  end.

(** ** Exceptions and results *)

Record exn : Type := Exn { exn_type : string; exn_msg : string }.

(** [str(e)]. *)
Definition str_of_exn (e : exn) : string := exn_msg e.

Inductive Result (A : Type) : Type :=
| Ok (a : A)
| Raise (e : exn).
Arguments Ok {A} a.
Arguments Raise {A} e.

(** ** Process state *)

(** The state that the handlers read and write:
    - [cache]: the entries of the [lru_cache] around
      [cached_text_to_speech], least recently used first;
    - [free_calls], [paid_calls], [stt_calls]: how many requests were
      issued to the free provider, to the paid provider's client and to
      the speech recogniser;
    - [sent]: the messages passed to [chat.send_message], oldest first;
    - [temp_file]: the content of [temp_recording.wav], if it exists;
    - [clock]: logical time in seconds;
    - [stdout]: the lines printed so far. *)
Record State : Type := mkState {
  cache : dict bytes;
  free_calls : nat;
  paid_calls : nat;
  stt_calls : nat;
  sent : list string;
  temp_file : option bytes;
  clock : nat;
  stdout : list string
}.

Definition init_state : State :=
  mkState [] 0 0 0 [] None 0 [].

Definition set_cache (c : dict bytes) (s : State) : State :=
  mkState c (free_calls s) (paid_calls s) (stt_calls s) (sent s)
          (temp_file s) (clock s) (stdout s).
Definition set_free_calls (n : nat) (s : State) : State :=
  mkState (cache s) n (paid_calls s) (stt_calls s) (sent s)
          (temp_file s) (clock s) (stdout s).
Definition set_paid_calls (n : nat) (s : State) : State :=
  mkState (cache s) (free_calls s) n (stt_calls s) (sent s)
          (temp_file s) (clock s) (stdout s).
Definition set_stt_calls (n : nat) (s : State) : State :=
  mkState (cache s) (free_calls s) (paid_calls s) n (sent s)
          (temp_file s) (clock s) (stdout s).
Definition set_sent (l : list string) (s : State) : State :=
  mkState (cache s) (free_calls s) (paid_calls s) (stt_calls s) l
          (temp_file s) (clock s) (stdout s).
Definition set_temp_file (f : option bytes) (s : State) : State :=
  mkState (cache s) (free_calls s) (paid_calls s) (stt_calls s) (sent s)
          f (clock s) (stdout s).
Definition set_clock (t : nat) (s : State) : State :=
  mkState (cache s) (free_calls s) (paid_calls s) (stt_calls s) (sent s)
          (temp_file s) t (stdout s).
Definition set_stdout (l : list string) (s : State) : State :=
  mkState (cache s) (free_calls s) (paid_calls s) (stt_calls s) (sent s)
          (temp_file s) (clock s) l.

(** ** The monad of handlers *)

Definition M (A : Type) : Type := State -> Result A * State.

Definition ret {A} (a : A) : M A := fun s => (Ok a, s).

Definition raise {A} (e : exn) : M A := fun s => (Raise e, s).

Definition bind {A B} (m : M A) (k : A -> M B) : M B :=
  fun s =>
    match m s with
    | (Ok a, s') => k a s'
    | (Raise e, s') => (Raise e, s')
    end.

(** [try: body  except Exception as e: handler(e)].  The effects of the
    body up to the raise are kept. *)
Definition try_except {A} (body : M A) (handler : exn -> M A) : M A :=
  fun s =>
    match body s with
    | (Ok a, s') => (Ok a, s')
    | (Raise e, s') => handler e s'
    end.

Declare Scope monad_scope.
Notation "x <- m ;; k" := (bind m (fun x => k))
  (at level 61, m at next level, right associativity) : monad_scope.
Notation "m ;; k" := (bind m (fun _ => k))
  (at level 61, right associativity) : monad_scope.
Open Scope monad_scope.

Definition print (line : string) : M unit :=
  fun s => (Ok tt, set_stdout (stdout s ++ [line]) s).

(** The value and the final state of a run. *)
Definition result_of {A} (r : Result A * State) : Result A := fst r.
Definition state_of {A} (r : Result A * State) : State := snd r.

(** ** The outside world *)

(** What [requests.get] hands back. *)
Record HttpResponse : Type := mkHttp {
  status_code : nat;
  content : bytes
}.

(** What [client.generate] hands back: one buffer, or an iterator of
    chunks, which may itself raise once its chunks are consumed. *)
Inductive Payload : Type :=
| Buffer (data : bytes)
| Stream (chunks : list bytes) (fault : option exn).

(** The part of [resume_data.json] that the greeting reads. *)
Record Education : Type := mkEducation {
  degree : string;
  university : string
}.
Record Skills : Type := mkSkills {
  languages : list string;
  tools_and_libraries : list string
}.
Record Titled : Type := mkTitled { title : string }.
Record UserData : Type := mkUserData {
  name : string;
  education : Education;
  skills : Skills;
  projects : list Titled;
  achievements : list Titled
}.

(** Each network oracle takes the argument of the call and the number
    of earlier calls, and gives the latency of the call in seconds and
    its outcome. *)
Record World : Type := mkWorld {
  user_data : UserData;
  ASSEMBLY_AI_API_KEY : string;
  streamelements : string -> nat -> nat * Result HttpResponse;
  elevenlabs : string -> nat -> nat * Result Payload;
  gemini : string -> nat -> nat * Result string;
  save_fault : option exn;
  assemblyai : bytes -> nat -> nat * Result (option string)
}.

(** [requests.get(url, params={"voice": "Brian", "text": text})]. *)
Definition requests_get (w : World) (text : string) : M HttpResponse :=
  fun s =>
    let '(latency, outcome) := streamelements w text (free_calls s) in
    (outcome,
     set_clock (clock s + latency) (set_free_calls (S (free_calls s)) s)).

(** [client.generate(text=text, voice=..., model=..., voice_settings=...)]. *)
Definition client_generate (w : World) (text : string) : M Payload :=
  fun s =>
    let '(latency, outcome) := elevenlabs w text (paid_calls s) in
    (outcome,
     set_clock (clock s + latency) (set_paid_calls (S (paid_calls s)) s)).

(** [chat.send_message(user_message).text]. *)
Definition chat_send_message (w : World) (user_message : string) : M string :=
  fun s =>
    let '(latency, outcome) := gemini w user_message (List.length (sent s)) in
    (outcome,
     set_clock (clock s + latency) (set_sent (sent s ++ [user_message]) s)).

(** [aai.Transcriber().transcribe(temp_file_path).text]. *)
Definition transcriber_transcribe (w : World) : M (option string) :=
  fun s =>
    match temp_file s with
    | None => (Raise (Exn "FileNotFoundError" "temp_recording.wav"), s)
    | Some audio =>
        let '(latency, outcome) := assemblyai w audio (stt_calls s) in
        (outcome,
         set_clock (clock s + latency) (set_stt_calls (S (stt_calls s)) s))
    end.

(** [audio_file.save(temp_file_path)]. *)
Definition file_save (w : World) (audio_file : bytes) : M unit :=
  match save_fault w with
  | Some e => raise e
  | None => fun s => (Ok tt, set_temp_file (Some audio_file) s)
  end.

(** [if os.path.exists(temp_file_path): os.remove(temp_file_path)]. *)
Definition remove_temp_file : M unit :=
  fun s =>
    match temp_file s with
    | Some _ => (Ok tt, set_temp_file None s)
    | None => (Ok tt, s)
    end.

(** ** [generate_free_tts] *)

Definition generate_free_tts (w : World) (text : string) : M (option bytes) :=
  try_except
    (response <- requests_get w text ;;
     if Nat.eqb (status_code response) 200 then
       ret (Some (content response))
     else
       print ("Free TTS API error: " ++ str_of_nat (status_code response)) ;;
       ret None)
    (fun e =>
       print ("Error with free TTS: " ++ str_of_exn e) ;;
       ret None).

(** ** [functools.lru_cache]

    The wrapper that [lru_cache(maxsize=n)] builds for a positive [n]
    around a function of one string argument.  The key of a call is its
    argument.  The entries are kept in recency order, the least
    recently used one first.  A call looks the key up ([cache_get]); a
    hit moves the entry to the most recent position and returns its
    value; a miss calls the wrapped function and stores what it returns
    ([cache_put]), dropping the oldest entry when the cache is full.  A
    call that raises stores nothing. *)

Fixpoint dict_remove {V} (k : string) (d : dict V) : dict V :=
  match d with
  | [] => []
  | (k', v) :: rest =>
      if String.eqb k k' then rest else (k', v) :: dict_remove k rest
  end.

Definition dict_mem {V} (k : string) (d : dict V) : bool :=
  match dict_lookup k d with Some _ => true | None => false end.

Definition cache_get (key : string) : M (option bytes) :=
  fun s =>
    match dict_lookup key (cache s) with
    | Some result =>
        (Ok (Some result),
         set_cache (dict_remove key (cache s) ++ [(key, result)])%list s)
    | None => (Ok None, s)
    end.

Definition cache_put (maxsize : nat) (key : string) (result : bytes) : M unit :=
  fun s =>
    if dict_mem key (cache s) then
      (Ok tt, s)
    else if Nat.leb maxsize (List.length (cache s)) then
      (Ok tt, set_cache (tl (cache s) ++ [(key, result)])%list s)
    else
      (Ok tt, set_cache (cache s ++ [(key, result)])%list s).

Definition lru_cache (maxsize : nat) (user_function : string -> M bytes)
  (key : string) : M bytes :=
  hit <- cache_get key ;;
  match hit with
  | Some result => ret result
  | None =>
      result <- user_function key ;;
      cache_put maxsize key result ;;
      ret result
  end.

(** ** [cached_text_to_speech] *)

(** [b''.join(audio_data)] on an iterator. *)
Definition drain (chunks : list bytes) (fault : option exn) : M bytes :=
  match fault with
  | Some e => raise e
  | None => ret (join_bytes chunks)
  end.

(** The body of [cached_text_to_speech], under the decorator. *)
Definition cached_text_to_speech_wrapped (w : World) (text : string) : M bytes :=
  audio_data <- client_generate w text ;;
  match audio_data with
  | Stream chunks fault => drain chunks fault
  | Buffer data => ret data
  end.

Definition maxsize : nat := 128.

Definition cached_text_to_speech (w : World) : string -> M bytes :=
  lru_cache maxsize (cached_text_to_speech_wrapped w).

(** ** [generate_audio], the function nested in [chat_endpoint]

    A [try] block that may [return] yields [Some v] when it returned
    [v] and [None] when control falls through to the next statement. *)
Definition generate_audio (w : World) (audio_text : string) : M (option bytes) :=
  returned <-
    try_except
      (audio_data <- generate_free_tts w audio_text ;;
       if truthy audio_data then ret (Some audio_data) else ret None)
      (fun free_error =>
         print ("Free TTS error in chat: " ++ str_of_exn free_error) ;;
         ret None) ;;
  match returned with
  | Some audio_data => ret audio_data
  | None =>
      returned <-
        try_except
          (audio_data <- cached_text_to_speech w audio_text ;;
           if bytes_truthy audio_data then ret (Some (Some audio_data))
           else ret None)
          (fun el_error =>
             print ("ElevenLabs error in chat: " ++ str_of_exn el_error) ;;
             ret None) ;;
      match returned with
      | Some audio_data => ret audio_data
      | None => ret None
      end
  end.

(** ** [generate_introduction] *)

(** [items[i]]. *)
Definition getitem {A} (i : nat) (items : list A) : M A :=
  match nth_error items i with
  | Some x => ret x
  | None => raise (Exn "IndexError" "list index out of range")
  end.

(** The f-string of the greeting; its fields are evaluated from left to
    right. *)
Definition introduction_text (w : World) : M string :=
  let d := user_data w in
  p0 <- getitem 0 (projects d) ;;
  p1 <- getitem 1 (projects d) ;;
  a0 <- getitem 0 (achievements d) ;;
  a1 <- getitem 1 (achievements d) ;;
  ret ("I'm " ++ name d ++ ", a " ++ degree (education d)
       ++ " student at " ++ university (education d)
       ++ ". I'm passionate about "
       ++ join ", " (firstn 3 (languages (skills d)))
       ++ " and have experience in "
       ++ join ", " (firstn 3 (tools_and_libraries (skills d)))
       ++ ". I've worked on projects like " ++ title p0
       ++ " and " ++ title p1
       ++ ", and I've achieved " ++ title a0
       ++ " and " ++ title a1 ++ ".").

Definition fallback_introduction : string :=
  "Hi! I'm Boobalamurgan AI assistant. I'm here to chat about tech, AI, and software development.".

Definition generate_introduction (w : World) : M (dict json) :=
  try_except
    (introduction <- introduction_text w ;;
     returned <-
       try_except
         (audio_data <- generate_free_tts w introduction ;;
          match audio_data with
          | Some ((_ :: _) as data) =>
              ret (Some [("text", JStr introduction);
                         ("audio", JStr (b64encode data))])
          | _ => ret None
          end)
         (fun free_error =>
            print ("Free TTS error: " ++ str_of_exn free_error) ;;
            ret None) ;;
     match returned with
     | Some intro_data => ret intro_data
     | None =>
         returned <-
           try_except
             (audio_data <- cached_text_to_speech w introduction ;;
              if bytes_truthy audio_data then
                ret (Some [("text", JStr introduction);
                           ("audio", JStr (b64encode audio_data))])
              else ret None)
             (fun el_error =>
                print ("ElevenLabs error: " ++ str_of_exn el_error) ;;
                ret None) ;;
         match returned with
         | Some intro_data => ret intro_data
         | None => ret [("text", JStr introduction); ("audio", JNull)]
         end
     end)
    (fun e =>
       print ("Error generating introduction: " ++ str_of_exn e) ;;
       ret [("text", JStr fallback_introduction); ("audio", JNull)]).

(** ** [concurrent.futures]

    A future records when its task finishes and how.  [submit] runs the
    task on a worker: the caller's clock does not move, the task's
    effects on the shared state are kept.  Leaving the [with] block of
    an executor calls [shutdown(wait=True)], which returns once the
    submitted task has finished.  [future.result(timeout)] waits for
    the task at most [timeout] seconds and raises [TimeoutError] when
    it has not finished by then. *)
Record Future (A : Type) : Type := mkFuture {
  done_at : nat;
  outcome : Result A
}.

Definition executor_submit {A} (task : M A) : M (Future A) :=
  fun s =>
    let '(r, s') := task s in
    (Ok (mkFuture (clock s') r), set_clock (clock s) s').

Definition executor_shutdown_wait {A} (future : Future A) : M unit :=
  fun s => (Ok tt, set_clock (Nat.max (clock s) (done_at future)) s).

Definition future_result {A} (future : Future A) (timeout : nat) : M A :=
  fun s =>
    if Nat.leb (done_at future) (clock s + timeout) then
      (outcome future, set_clock (Nat.max (clock s) (done_at future)) s)
    else
      (Raise (Exn "TimeoutError" ""), set_clock (clock s + timeout) s).

(** [with ThreadPoolExecutor() as executor: future = executor.submit(task)]. *)
Definition with_executor_submit {A} (task : M A) : M (Future A) :=
  future <- executor_submit task ;;
  executor_shutdown_wait future ;;
  ret future.

(** ** Responses *)

Inductive Body : Type :=
| JsonBody (fields : dict json)
| RawBody (mimetype : string) (data : bytes).

Record Response : Type := mkResponse {
  http_status : nat;
  body : Body
}.

(** [jsonify(fields)], and [jsonify(fields), code]. *)
Definition jsonify (fields : dict json) : Response := mkResponse 200 (JsonBody fields).
Definition jsonify_status (fields : dict json) (code : nat) : Response :=
  mkResponse code (JsonBody fields).

(** The field [k] of a JSON response, if the body is JSON and has it. *)
Definition field (k : string) (r : Response) : option json :=
  match body r with
  | JsonBody fields => dict_lookup k fields
  | RawBody _ _ => None
  end.

(** ** [chat_endpoint] *)

Definition api_error_text : string :=
  "I'm sorry, I encountered an error processing your request. This might be due to API quota limitations. Please try again with a shorter message.".

(** [len(user_message)] and the slice that follows it, for the values a
    [message] field can hold here: a string, or nothing. *)
Definition limit_message (user_message : json) : M string :=
  match user_message with
  | JNull => raise (Exn "TypeError" "object of type 'NoneType' has no len()")
  | JStr user_message =>
      if Nat.ltb 500 (String.length user_message) then
        ret (substring 0 500 user_message ++ "...")
      else ret user_message
  end.

Definition chat_endpoint (w : World) (request_json : dict json) : M Response :=
  let user_message := dict_get "message" request_json in
  try_except
    (user_message <- limit_message user_message ;;
     response_text <- chat_send_message w user_message ;;
     let audio_text := response_text in
     future <- with_executor_submit (generate_audio w audio_text) ;;
     try_except
       (audio_data <- future_result future 10 ;;
        match audio_data with
        | Some ((_ :: _) as data) =>
            ret (jsonify [("response", JStr response_text);
                          ("audio", JStr (b64encode data));
                          ("status", JStr "success")])
        | _ =>
            ret (jsonify [("response", JStr response_text);
                          ("audio", JNull);
                          ("status", JStr "no_audio")])
        end)
       (fun e =>
          print ("Error in audio generation: " ++ str_of_exn e) ;;
          ret (jsonify [("response", JStr response_text);
                        ("audio", JNull);
                        ("status", JStr "audio_error")])))
    (fun e =>
       print ("Error in chat endpoint: " ++ str_of_exn e) ;;
       ret (jsonify [("response", JStr api_error_text);
                     ("audio", JNull);
                     ("status", JStr "api_error")])).

(** ** [text_to_speech], the route [/audio/<text>]

    [cached_text_to_speech] returns bytes, so the second conversion in
    the route never applies. *)
Definition text_to_speech (w : World) (text : string) : M Response :=
  try_except
    (audio_data <- cached_text_to_speech w text ;;
     ret (mkResponse 200 (RawBody "audio/mpeg" audio_data)))
    (fun e =>
       print ("Error generating audio: " ++ str_of_exn e) ;;
       ret (jsonify_status [("error", JStr "Failed to generate audio")] 500)).

(** ** [transcribe_with_assemblyai], the route [/transcribe_audio] *)

Definition key_unconfigured (key : string) : bool :=
  String.eqb key "" || String.eqb key "your-assemblyai-key".

Definition transcribe_with_assemblyai (w : World) (request_files : dict bytes)
  : M Response :=
  match dict_lookup "audio" request_files with
  | None => ret (jsonify_status [("error", JStr "No audio file provided")] 400)
  | Some audio_file =>
      file_save w audio_file ;;
      try_except
        (if key_unconfigured (ASSEMBLY_AI_API_KEY w) then
           print "No valid AssemblyAI API key found" ;;
           remove_temp_file ;;
           ret (jsonify_status
                  [("transcript", JStr "");
                   ("error", JStr "AssemblyAI API key is not configured. Please update api_key.json with your key.");
                   ("status", JStr "error")] 400)
         else
           print "Using AssemblyAI for transcription" ;;
           transcript_text <- transcriber_transcribe w ;;
           let text := match transcript_text with
                       | Some t => t
                       | None => ""
                       end in
           print ("AssemblyAI transcription result: " ++ text) ;;
           remove_temp_file ;;
           ret (jsonify [("transcript", JStr text);
                         ("status", JStr "success")]))
        (fun e =>
           print ("Error in AssemblyAI transcription: " ++ str_of_exn e) ;;
           remove_temp_file ;;
           ret (jsonify_status
                  [("transcript", JStr "");
                   ("error", JStr ("AssemblyAI error: " ++ str_of_exn e));
                   ("status", JStr "error")] 500))
  end.

(** ** [record_audio], the deprecated route [/record] *)

Definition record_audio : M Response :=
  ret (jsonify
         [("transcript", JStr "");
          ("message", JStr "This feature has been replaced with browser-based recording for better compatibility. Please use the microphone button in the interface.")]).

(** ** The process as a server

    The requests the routes accept, and the state of the process after
    it has handled a list of them one after the other.  A handler that
    raises leaves the process running in the state it reached. *)
Inductive Request : Type :=
| GetIndex
| PostChat (request_json : dict json)
| GetAudio (text : string)
| PostRecord
| PostTranscribe (request_files : dict bytes).

Definition handle (w : World) (r : Request) (s : State) : State :=
  match r with
  | GetIndex => state_of (generate_introduction w s)
  | PostChat request_json => state_of (chat_endpoint w request_json s)
  | GetAudio text => state_of (text_to_speech w text s)
  | PostRecord => state_of (record_audio s)
  | PostTranscribe request_files =>
      state_of (transcribe_with_assemblyai w request_files s)
  end.

Definition serve (w : World) (requests : list Request) (s : State) : State :=
  fold_left (fun s r => handle w r s) requests s.

(** [n] calls of [generate_audio] on the same text, one after the other. *)
Fixpoint repeat_generate_audio (w : World) (text : string) (n : nat)
  (s : State) : State :=
  match n with
  | O => s
  | S n' => repeat_generate_audio w text n' (state_of (generate_audio w text s))
  end.

(** [cached_text_to_speech] on each text of a list, in order. *)
Definition synthesize_all (w : World) (texts : list string) (s : State) : State :=
  fold_left (fun s text => state_of (cached_text_to_speech w text s)) texts s.

(** The bytes a call of the paid provider ends in, if it does not
    raise. *)
Definition payload_bytes (r : Result Payload) : option bytes :=
  match r with
  | Ok (Buffer data) => Some data
  | Ok (Stream chunks None) => Some (join_bytes chunks)
  | Ok (Stream _ (Some _)) => None
  | Raise _ => None
  end.

(** The paid provider answers every call. *)
Definition paid_healthy (w : World) : Prop :=
  forall text n, payload_bytes (snd (elevenlabs w text n)) <> None.

(** The keys of a cache, least recently used first. *)
Definition keys (c : dict bytes) : list string := map fst c.

(** The cache is well formed: no key occurs twice and there are at most
    [maxsize] entries. *)
Definition cache_wf (c : dict bytes) : Prop :=
  NoDup (keys c) /\ List.length c <= maxsize.

(** Least-recently-used order on keys alone: the order of the keys
    after a call on [key] that does not raise.  A key that is present
    moves to the most recent position; a new key is appended, and takes
    the place of the least recently used key when [maxsize] keys are
    present. *)
Fixpoint remove_first (key : string) (l : list string) : list string :=
  match l with
  | [] => []
  | x :: rest =>
      if String.eqb key x then rest else x :: remove_first key rest
  end.

Definition recency_after (key : string) (l : list string) : list string :=
  if existsb (String.eqb key) l then (remove_first key l ++ [key])%list
  else if Nat.leb maxsize (List.length l) then (tl l ++ [key])%list
  else (l ++ [key])%list.

(** No string occurs twice in the list. *)
Fixpoint distinct (l : list string) : bool :=
  match l with
  | [] => true
  | x :: rest => negb (existsb (String.eqb x) rest) && distinct rest
  end.

(** HTTP status classes. *)
Definition client_error (code : nat) : bool :=
  Nat.leb 400 code && Nat.ltb code 500.
Definition server_error (code : nat) : bool :=
  Nat.leb 500 code && Nat.ltb code 600.

(** The statuses of [/transcribe_audio] in the words of the
    specification: a client error when no audio file is attached, a
    server error when the recogniser is unconfigured or fails. *)
Definition transcription_statuses_as_specified : Prop :=
  forall w request_files s response s',
    transcribe_with_assemblyai w request_files s = (Ok response, s') ->
    (dict_lookup "audio" request_files = None ->
     client_error (http_status response) = true) /\
    (forall audio,
        dict_lookup "audio" request_files = Some audio ->
        key_unconfigured (ASSEMBLY_AI_API_KEY w) = true \/
        (exists e, snd (assemblyai w audio (stt_calls s)) = Raise e) ->
        server_error (http_status response) = true).

(** ** Sample inputs *)

Definition sample_user_data : UserData :=
  mkUserData "Boobalamurugan S"
    (mkEducation "Computer Science" "University")
    (mkSkills ["Python"] ["AI"])
    [mkTitled "AI Projects"; mkTitled "Web Development"]
    [mkTitled "Academic Excellence"; mkTitled "Coding Competition"].

Definition sample_audio : bytes := [x49; x44; x33].
Definition sample_paid_audio : bytes := [xff; xfb; x90; x00].

(** Both providers answer at once; the recogniser has no key. *)
Definition healthy_world : World :=
  mkWorld sample_user_data "your-assemblyai-key"
    (fun _ _ => (0, Ok (mkHttp 200 sample_audio)))
    (fun _ _ => (0, Ok (Stream [[xff; xfb]; [x90; x00]] None)))
    (fun message _ => (0, Ok ("You said: " ++ message)))
    None
    (fun _ _ => (0, Ok (Some "hello"))).

(** The free provider answers 500; the paid one answers. *)
Definition free_down_world : World :=
  mkWorld sample_user_data "your-assemblyai-key"
    (fun _ _ => (0, Ok (mkHttp 500 [])))
    (fun _ _ => (0, Ok (Buffer sample_paid_audio)))
    (fun message _ => (0, Ok ("You said: " ++ message)))
    None
    (fun _ _ => (0, Ok (Some "hello"))).

(** The free provider needs 30 seconds to answer. *)
Definition slow_world : World :=
  mkWorld sample_user_data "your-assemblyai-key"
    (fun _ _ => (30, Ok (mkHttp 200 sample_audio)))
    (fun _ _ => (0, Ok (Buffer sample_paid_audio)))
    (fun message _ => (0, Ok ("You said: " ++ message)))
    None
    (fun _ _ => (0, Ok (Some "hello"))).

(** The recogniser has a key and its call raises. *)
Definition stt_failing_world : World :=
  mkWorld sample_user_data "0123456789abcdef"
    (fun _ _ => (0, Ok (mkHttp 200 sample_audio)))
    (fun _ _ => (0, Ok (Buffer sample_paid_audio)))
    (fun message _ => (0, Ok ("You said: " ++ message)))
    None
    (fun _ _ => (1, Raise (Exn "TranscriptError" "upload failed"))).

(** Both providers raise. *)
Definition all_down_world : World :=
  mkWorld sample_user_data "your-assemblyai-key"
    (fun _ _ => (3, Raise (Exn "ConnectionError" "Max retries exceeded")))
    (fun _ _ => (1, Raise (Exn "ApiError" "quota_exceeded")))
    (fun message _ => (0, Ok ("You said: " ++ message)))
    None
    (fun _ _ => (0, Ok (Some "hello"))).

(** A message of [n] letters. *)
Fixpoint letters (n : nat) : string :=
  match n with
  | O => ""
  | S n' => String "a"%char (letters n')
  end.

(** 129 distinct texts: ["0"], ["1"], ..., ["128"]. *)
Definition sample_texts (n : nat) : list string := map str_of_nat (seq 0 n).

(** ** [create_system_prompt]

    The resume is a JSON object read with [.get(key, default)]: every
    key may be missing.  Its leaves are strings and lists of strings. *)
Record ResumeEducation : Type := mkResumeEducation {
  edu_degree : option string;
  edu_university : option string;
  edu_duration : option string;
  edu_cgpa : option string;
  edu_coursework : option (list string)
}.
Record ResumeExperience : Type := mkResumeExperience {
  exp_role : option string;
  exp_company : option string;
  exp_duration : option string;
  exp_details : option (list string)
}.
Record ResumeProject : Type := mkResumeProject {
  proj_title : option string;
  proj_github : option string;
  proj_details : option (list string);
  proj_tools : option string
}.
Record ResumeSkills : Type := mkResumeSkills {
  sk_languages : option (list string);
  sk_tools_and_libraries : option (list string)
}.
Record ResumeAchievement : Type := mkResumeAchievement {
  ach_title : option string;
  ach_date : option string;
  ach_details : option string
}.
Record Resume : Type := mkResume {
  res_name : option string;
  res_education : option ResumeEducation;
  res_experience : option (list ResumeExperience);
  res_projects : option (list ResumeProject);
  res_skills : option ResumeSkills;
  res_achievements : option (list ResumeAchievement)
}.

(** [d.get(key, default)], on the field that holds the key. *)
Definition get_or {A} (o : option A) (default : A) : A :=
  match o with Some v => v | None => default end.

(** The empty dict [{}]. *)
Definition empty_education : ResumeEducation :=
  mkResumeEducation None None None None None.
Definition empty_skills : ResumeSkills := mkResumeSkills None None.

(** The characters a literal cannot hold: newline and double quote. *)
Definition nl : string := String (ascii_of_nat 10) EmptyString.
Definition dq : string := String (ascii_of_nat 34) EmptyString.

(** [if s:] on a string. *)
Definition str_truthy (s : string) : bool :=
  match s with EmptyString => false | String _ _ => true end.

(** [for detail in details: text += f"  - {detail}\n"]. *)
Definition add_details (text : string) (details : list string) : string :=
  fold_left (fun text detail => text ++ "  - " ++ detail ++ nl) details text.

(** The body of [for exp in experiences], on the two variables it
    assigns: [experience_text] and [duration]. *)
Definition experience_step (vars : string * string) (exp : ResumeExperience)
  : string * string :=
  let experience_text := fst vars in
  let role := get_or (exp_role exp) "" in
  let company := get_or (exp_company exp) "" in
  let duration := get_or (exp_duration exp) "" in
  let details := get_or (exp_details exp) [] in
  if str_truthy duration then
    (add_details
       (experience_text
        ++ "• " ++ role ++ " at " ++ company ++ " (" ++ duration ++ ")" ++ nl)
       details,
     duration)
  else (experience_text, duration).

(** The body of [for proj in projects]. *)
Definition project_step (project_text : string) (proj : ResumeProject) : string :=
  let title := get_or (proj_title proj) "" in
  let github := get_or (proj_github proj) "" in
  let details := get_or (proj_details proj) [] in
  let tools := get_or (proj_tools proj) "" in
  let project_text :=
    add_details (project_text ++ "• " ++ title ++ " (" ++ github ++ ")" ++ nl)
      details in
  if str_truthy tools then project_text ++ "  Tools: " ++ tools ++ nl
  else project_text.

(** The body of [for achievement in achievements]. *)
Definition achievement_step (achievement_text : string)
  (achievement : ResumeAchievement) : string :=
  let title := get_or (ach_title achievement) "" in
  let date := get_or (ach_date achievement) "" in
  let details := get_or (ach_details achievement) "" in
  achievement_text ++ "• " ++ title ++ " (" ++ date ++ "): " ++ details ++ nl.

(** The lines of the prompt that [create_system_prompt] returns. *)
Definition system_prompt_lines (data : Resume) : list string :=
  let education := get_or (res_education data) empty_education in
  let degree_ := get_or (edu_degree education) "Degree not specified" in
  let university_ :=
    get_or (edu_university education) "University not specified" in
  let duration := get_or (edu_duration education) "Duration not specified" in
  let cgpa := get_or (edu_cgpa education) "CGPA not specified" in
  let coursework := get_or (edu_coursework education) [] in
  let experiences := get_or (res_experience data) [] in
  let vars := fold_left experience_step experiences ("", duration) in
  let experience_text := fst vars in
  let duration := snd vars in
  let projects_ := get_or (res_projects data) [] in
  let project_text := fold_left project_step projects_ "" in
  let skills_ := get_or (res_skills data) empty_skills in
  let languages_ := get_or (sk_languages skills_) [] in
  let tools_libs := get_or (sk_tools_and_libraries skills_) [] in
  let skills_text :=
    "• Programming Languages: " ++ join ", " languages_ ++ nl in
  let skills_text :=
    skills_text ++ "• Tools & Libraries: " ++ join ", " tools_libs ++ nl in
  let achievements_ := get_or (res_achievements data) [] in
  let achievement_text := fold_left achievement_step achievements_ "" in
  let name_ := get_or (res_name data) "Boobalamurugan S" in
  [ "I am " ++ name_ ++ ". An AI and computer vision specialist with experience in real-time systems and deep learning solutions.";
    "";
    "IDENTITY:";
    "- " ++ degree_ ++ " from " ++ university_ ++ " (" ++ duration ++ "), CGPA: " ++ cgpa;
    "- Key Coursework: " ++ join ", " coursework;
    "";
    "EXPERIENCE:";
    experience_text;
    "";
    "PROJECTS:";
    project_text;
    "";
    "TECHNICAL SKILLS:";
    skills_text;
    "";
    "ACHIEVEMENTS:";
    achievement_text;
    "";
    "RESPONSE STYLE:";
    "I provide concise but friendly responses. I maintain a professional tone with a touch of enthusiasm about technology. My answers are direct and focused but include brief conversational elements when appropriate.";
    "";
    "GUIDELINES:";
    "- Keep responses under 150 words whenever possible";
    "- Include a brief greeting or acknowledgment when appropriate";
    "- Present information in clear, direct sentences";
    "- Use technical terms naturally but explain them when needed";
    "- Answer exactly what was asked with precision";
    "- Include 1-2 polite phrases to maintain conversational flow";
    "- For lists, use natural phrases instead of numbered points";
    "- Use transition words like " ++ dq ++ "First," ++ dq ++ " " ++ dq ++ "Also," ++ dq ++ " " ++ dq ++ "Additionally," ++ dq ++ " " ++ dq ++ "Finally" ++ dq ++ " instead of numbers";
    "- DO NOT end responses with questions to the user";
    "- Make definitive statements rather than asking for more information";
    "- Conclude with a brief, helpful statement rather than a question";
    "";
    "LANGUAGE CAPABILITIES:";
    "- I can only respond effectively in English";
    "- If asked to speak in Tamil or other non-English languages, I will politely explain that I cannot generate proper Tamil responses";
    "- I will NOT pretend to speak Tamil or other languages I don't support";
    "- I will be honest about my limitations and suggest using English instead";
    "";
    "IMPORTANT: Format responses for natural speech. Avoid numbers, symbols, or formatting that would sound awkward when read aloud.";
    "";
    "I combine technical accuracy with a personable approach while avoiding unnecessary verbosity." ].

Definition create_system_prompt (data : Resume) : string :=
  join nl (system_prompt_lines data).

(** ** Vocabulary of the statements *)

(** [framed R m]: every run of [m] takes a state to a state related to
    it by [R]. *)
Definition framed (R : State -> State -> Prop) {A} (m : M A) : Prop :=
  forall s, R s (state_of (m s)).

(** A run keeps the component [f] of the state. *)
Definition keeps {X} (f : State -> X) : State -> State -> Prop :=
  fun s s' => f s' = f s.

(** A run keeps the cache well formed. *)
Definition wf_step : State -> State -> Prop :=
  fun s s' => cache_wf (cache s) -> cache_wf (cache s').

(** What the free stage returns, read off the provider's answer. *)
Definition free_result (r : Result HttpResponse) : option bytes :=
  match r with
  | Ok response =>
      if Nat.eqb (status_code response) 200 then Some (content response)
      else None
  | Raise _ => None
  end.

(** The state in which the paid provider's answer arrives. *)
Definition after_paid_call (w : World) (text : string) (s : State) : State :=
  set_clock (clock s + fst (elevenlabs w text (paid_calls s)))
            (set_paid_calls (S (paid_calls s)) s).

(** The entries after a new entry is stored. *)
Definition stored (c : dict bytes) (key : string) (data : bytes) : dict bytes :=
  if Nat.leb maxsize (List.length c) then (tl c ++ [(key, data)])%list
  else (c ++ [(key, data)])%list.

(** The [audio] entry of a greeting: nothing, or the encoding of
    non-empty bytes. *)
Definition audio_field_ok (a : json) : Prop :=
  a = JNull \/ exists data, data <> [] /\ a = JStr (b64encode data).

(** The message [chat_endpoint] forwards for a string message. *)
Definition limit_text (m : string) : string :=
  if Nat.ltb 500 (String.length m) then substring 0 500 m ++ "..." else m.

(** The state in which the reply of the conversational backend
    arrives. *)
Definition after_send (w : World) (x : string) (s : State) : State :=
  set_clock (clock s + fst (gemini w x (List.length (sent s))))
            (set_sent (sent s ++ [x]) s).

(** The two answers of [chat_endpoint] that carry the reply, and the
    answer of its outer [except]. *)
Definition chat_response (response_text : string) (audio_data : option bytes)
  : Response :=
  match audio_data with
  | Some ((_ :: _) as data) =>
      jsonify [("response", JStr response_text);
               ("audio", JStr (b64encode data));
               ("status", JStr "success")]
  | _ =>
      jsonify [("response", JStr response_text);
               ("audio", JNull);
               ("status", JStr "no_audio")]
  end.

Definition api_error_response : Response :=
  jsonify [("response", JStr api_error_text);
           ("audio", JNull);
           ("status", JStr "api_error")].

(** The [audio] entry of a greeting for what a synthesis returned. *)
Definition audio_entry (audio_data : option bytes) : json :=
  match audio_data with
  | Some ((_ :: _) as data) => JStr (b64encode data)
  | _ => JNull
  end.

(** The free provider answers every call with status 200 and audio
    that is not empty. *)
Definition free_healthy (w : World) : Prop :=
  forall text n, truthy (free_result (snd (streamelements w text n))) = true.

Definition is_get_audio (r : Request) : bool :=
  match r with GetAudio _ => true | _ => false end.


(** A cache entry holds bytes the paid provider answered for its
    text. *)
Definition from_paid_provider (w : World) (entry : string * bytes) : Prop :=
  exists n, payload_bytes (snd (elevenlabs w (fst entry) n)) = Some (snd entry).

(** An experience entry whose duration is present and not empty. *)
Definition has_duration (exp : ResumeExperience) : bool :=
  str_truthy (get_or (exp_duration exp) "").

(** The resume with the duration of its education replaced. *)
Definition with_education_duration (d : option string) (data : Resume) : Resume :=
  let education := get_or (res_education data) empty_education in
  mkResume (res_name data)
    (Some (mkResumeEducation (edu_degree education) (edu_university education)
             d (edu_cgpa education) (edu_coursework education)))
    (res_experience data) (res_projects data) (res_skills data)
    (res_achievements data).

(** The IDENTITY line of the prompt for a given duration. *)
Definition identity_line (data : Resume) (duration : string) : string :=
  let education := get_or (res_education data) empty_education in
  "- " ++ get_or (edu_degree education) "Degree not specified"
  ++ " from " ++ get_or (edu_university education) "University not specified"
  ++ " (" ++ duration ++ "), CGPA: "
  ++ get_or (edu_cgpa education) "CGPA not specified".

(** A resume with two experiences, the second without a duration. *)
Definition sample_resume : Resume :=
  mkResume (Some "Boobalamurugan S")
    (Some (mkResumeEducation (Some "B.Tech") (Some "University")
             (Some "2021 - 2025") (Some "8.5") (Some ["ML"; "DSA"])))
    (Some [mkResumeExperience (Some "Intern") (Some "Acme")
             (Some "Jun 2024 - Aug 2024") (Some ["Built a tracker"]);
           mkResumeExperience (Some "Volunteer") (Some "Club") None None])
    (Some [mkResumeProject (Some "AI Projects") (Some "github.com/x/ai")
             (Some ["Detection"]) (Some "PyTorch")])
    None
    (Some [mkResumeAchievement (Some "Hackathon") (Some "2023") (Some "Winner")]).

(** The paid provider answers with an empty buffer; the free one is down. *)
Definition empty_paid_world : World :=
  mkWorld sample_user_data "your-assemblyai-key"
    (fun _ _ => (0, Ok (mkHttp 503 [])))
    (fun _ _ => (0, Ok (Buffer [])))
    (fun message _ => (0, Ok ("You said: " ++ message)))
    None
    (fun _ _ => (0, Ok (Some "hello"))).

(** The recogniser has a key and answers. *)
Definition stt_world : World :=
  mkWorld sample_user_data "0123456789abcdef"
    (fun _ _ => (0, Ok (mkHttp 200 sample_audio)))
    (fun _ _ => (0, Ok (Buffer sample_paid_audio)))
    (fun message _ => (0, Raise (Exn "ResourceExhausted" "quota")))
    None
    (fun _ _ => (2, Ok (Some "hello there"))).

(** The upload cannot be written to disk. *)
Definition readonly_world : World :=
  mkWorld sample_user_data "0123456789abcdef"
    (fun _ _ => (0, Ok (mkHttp 200 sample_audio)))
    (fun _ _ => (0, Ok (Buffer sample_paid_audio)))
    (fun message _ => (0, Ok ("You said: " ++ message)))
    (Some (Exn "PermissionError" "temp_recording.wav"))
    (fun _ _ => (2, Ok (Some "hello there"))).

(** A resume record with a single project. *)
Definition short_world : World :=
  mkWorld
    (mkUserData "Boobalamurugan S"
       (mkEducation "Computer Science" "University")
       (mkSkills ["Python"] ["AI"])
       [mkTitled "AI Projects"]
       [mkTitled "Academic Excellence"; mkTitled "Coding Competition"])
    "your-assemblyai-key"
    (fun _ _ => (0, Ok (mkHttp 200 sample_audio)))
    (fun _ _ => (0, Ok (Buffer sample_paid_audio)))
    (fun message _ => (0, Ok ("You said: " ++ message)))
    None
    (fun _ _ => (0, Ok (Some "hello"))).

(** A run keeps a property [P] of the cache. *)
Definition cache_step (P : dict bytes -> Prop) : State -> State -> Prop :=
  fun s s' => P (cache s) -> P (cache s').

(** The text a recogniser's answer is reported with:
    [transcript.text or ""]. *)
Definition transcript_text (answer : option string) : string :=
  get_or answer "".

(** The lines one experience entry adds to the prompt: its heading and
    one line for each detail. *)
Definition experience_block (exp : ResumeExperience) : string :=
  "• " ++ get_or (exp_role exp) "" ++ " at " ++ get_or (exp_company exp) ""
  ++ " (" ++ get_or (exp_duration exp) "" ++ ")" ++ nl
  ++ fold_right String.append ""
       (map (fun detail => "  - " ++ detail ++ nl) (get_or (exp_details exp) [])).

(** * Properties *)

(** ** Frame reasoning

    For a reflexive and transitive [R], [framed R] goes through
    sequencing and through [try]/[except]. *)
Section Frame.
Variable R : State -> State -> Prop.
Hypothesis R_refl : forall s, R s s.
Hypothesis R_trans : forall a b c, R a b -> R b c -> R a c.

Lemma framed_ret A (a : A) : framed R (ret a).
Proof. intro s. apply R_refl. Qed.

Lemma framed_raise A (e : exn) : framed R (@raise A e).
Proof. intro s. apply R_refl. Qed.

Lemma framed_bind A B (m : M A) (k : A -> M B) :
  framed R m -> (forall a, framed R (k a)) -> framed R (bind m k).
Proof.
  intros Hm Hk s. specialize (Hm s).
  unfold bind, state_of in *.
  destruct (m s) as [[a | e] s1]; simpl in *.
  - eapply R_trans; [exact Hm | apply Hk].
  - exact Hm.
Qed.

Lemma framed_try A (body : M A) (handler : exn -> M A) :
  framed R body -> (forall e, framed R (handler e)) ->
  framed R (try_except body handler).
Proof.
  intros Hb Hh s. specialize (Hb s).
  unfold try_except, state_of in *.
  destruct (body s) as [[a | e] s1]; simpl in *.
  - exact Hb.
  - eapply R_trans; [exact Hb | apply Hh].
Qed.

Lemma framed_submit A (task : M A) :
  (forall s t, R s (set_clock t s)) ->
  framed R task -> framed R (executor_submit task).
Proof.
  intros Hc Ht s. specialize (Ht s).
  unfold executor_submit, state_of in *.
  destruct (task s) as [r s1]; simpl in *.
  eapply R_trans; [exact Ht | apply Hc].
Qed.
End Frame.

Lemma keeps_refl X (f : State -> X) s : keeps f s s.
Proof. reflexivity. Qed.

Lemma keeps_trans X (f : State -> X) a b c :
  keeps f a b -> keeps f b c -> keeps f a c.
Proof. unfold keeps. congruence. Qed.

Lemma wf_step_refl s : wf_step s s.
Proof. intro H. exact H. Qed.

Lemma wf_step_trans a b c : wf_step a b -> wf_step b c -> wf_step a c.
Proof. unfold wf_step. auto. Qed.

Lemma keeps_cache_wf_step s s' : keeps cache s s' -> wf_step s s'.
Proof. unfold keeps, wf_step. intros -> H. exact H. Qed.

Lemma framed_keeps_cache_wf A (m : M A) :
  framed (keeps cache) m -> framed wf_step m.
Proof. intros H s. apply keeps_cache_wf_step, H. Qed.

(** Structural steps of a frame proof. *)
Ltac frame_structure R Hrefl Htrans :=
  repeat match goal with
    | |- framed _ (ret _) => apply (@framed_ret R Hrefl)
    | |- framed _ (raise _) => apply (@framed_raise R Hrefl)
    | |- framed _ (bind _ _) => apply (@framed_bind R Htrans); [ | intro ]
    | |- framed _ (try_except _ _) =>
        apply (@framed_try R Htrans); [ | intro ]
    | |- framed _ (match ?x with _ => _ end) => destruct x
    | |- framed _ (let _ := _ in _) => cbv zeta
    end.

(** ** What each stage leaves untouched *)

Section KeepsFree.
Variables (X : Type) (f : State -> X).
Hypothesis f_clock : forall t s, f (set_clock t s) = f s.
Hypothesis f_free_calls : forall n s, f (set_free_calls n s) = f s.
Hypothesis f_stdout : forall l s, f (set_stdout l s) = f s.

Lemma print_keeps line : framed (keeps f) (print line).
Proof. intro s. apply f_stdout. Qed.

Lemma requests_get_keeps w text : framed (keeps f) (requests_get w text).
Proof.
  intro s. unfold requests_get, state_of, keeps.
  destruct (streamelements w text (free_calls s)) as [d r]; simpl.
  now rewrite f_clock, f_free_calls.
Qed.

Lemma generate_free_tts_keeps w text :
  framed (keeps f) (generate_free_tts w text).
Proof.
  unfold generate_free_tts.
  frame_structure (keeps f) (keeps_refl f) (@keeps_trans X f);
    auto using print_keeps, requests_get_keeps.
Qed.
End KeepsFree.

Section KeepsPaid.
Variables (X : Type) (f : State -> X).
Hypothesis f_clock : forall t s, f (set_clock t s) = f s.
Hypothesis f_paid_calls : forall n s, f (set_paid_calls n s) = f s.
Hypothesis f_cache : forall c s, f (set_cache c s) = f s.

Lemma client_generate_keeps w text : framed (keeps f) (client_generate w text).
Proof.
  intro s. unfold client_generate, state_of, keeps.
  destruct (elevenlabs w text (paid_calls s)) as [d r]; simpl.
  now rewrite f_clock, f_paid_calls.
Qed.

Lemma cache_get_keeps key : framed (keeps f) (cache_get key).
Proof.
  intro s. unfold cache_get, state_of, keeps.
  destruct (dict_lookup key (cache s)); simpl; [apply f_cache | reflexivity].
Qed.

Lemma cache_put_keeps n key data : framed (keeps f) (cache_put n key data).
Proof.
  intro s. unfold cache_put, state_of, keeps.
  destruct (dict_mem key (cache s)); simpl; [reflexivity |].
  destruct (Nat.leb n _); simpl; apply f_cache.
Qed.

Lemma cached_text_to_speech_keeps w text :
  framed (keeps f) (cached_text_to_speech w text).
Proof.
  unfold cached_text_to_speech, lru_cache, cached_text_to_speech_wrapped, drain.
  frame_structure (keeps f) (keeps_refl f) (@keeps_trans X f);
    auto using client_generate_keeps, cache_get_keeps, cache_put_keeps.
Qed.
End KeepsPaid.

Section KeepsSynthesis.
Variables (X : Type) (f : State -> X).
Hypothesis f_clock : forall t s, f (set_clock t s) = f s.
Hypothesis f_free_calls : forall n s, f (set_free_calls n s) = f s.
Hypothesis f_stdout : forall l s, f (set_stdout l s) = f s.
Hypothesis f_paid_calls : forall n s, f (set_paid_calls n s) = f s.
Hypothesis f_cache : forall c s, f (set_cache c s) = f s.

Lemma generate_audio_keeps w text : framed (keeps f) (generate_audio w text).
Proof.
  unfold generate_audio.
  frame_structure (keeps f) (keeps_refl f) (@keeps_trans X f);
    auto using print_keeps, generate_free_tts_keeps,
      cached_text_to_speech_keeps.
Qed.
End KeepsSynthesis.

Section KeepsIO.
Variables (X : Type) (f : State -> X).
Hypothesis f_clock : forall t s, f (set_clock t s) = f s.
Hypothesis f_sent : forall l s, f (set_sent l s) = f s.
Hypothesis f_stt_calls : forall n s, f (set_stt_calls n s) = f s.
Hypothesis f_temp_file : forall o s, f (set_temp_file o s) = f s.

Lemma chat_send_message_keeps w m : framed (keeps f) (chat_send_message w m).
Proof.
  intro s. unfold chat_send_message, state_of, keeps.
  destruct (gemini w m _) as [d r]; simpl.
  now rewrite f_clock, f_sent.
Qed.

Lemma transcriber_transcribe_keeps w :
  framed (keeps f) (transcriber_transcribe w).
Proof.
  intro s. unfold transcriber_transcribe, state_of, keeps.
  destruct (temp_file s) as [audio |]; [| reflexivity].
  destruct (assemblyai w audio _) as [d r]; simpl.
  now rewrite f_clock, f_stt_calls.
Qed.

Lemma file_save_keeps w audio : framed (keeps f) (file_save w audio).
Proof.
  intro s. unfold file_save, state_of, keeps.
  destruct (save_fault w); simpl; [reflexivity | apply f_temp_file].
Qed.

Lemma remove_temp_file_keeps : framed (keeps f) remove_temp_file.
Proof.
  intro s. unfold remove_temp_file, state_of, keeps.
  destruct (temp_file s); simpl; [apply f_temp_file | reflexivity].
Qed.

Lemma executor_shutdown_wait_keeps A (future : Future A) :
  framed (keeps f) (executor_shutdown_wait future).
Proof. intro s. apply f_clock. Qed.

Lemma future_result_keeps A (future : Future A) timeout :
  framed (keeps f) (future_result future timeout).
Proof.
  intro s. unfold future_result, state_of, keeps.
  destruct (Nat.leb _ _); simpl; apply f_clock.
Qed.
End KeepsIO.

(** ** The cache as a list of entries *)

Lemma dict_lookup_None V k (d : dict V) :
  dict_lookup k d = None <-> ~ In k (map fst d).
Proof.
  induction d as [| [k' v] d IH]; simpl.
  - tauto.
  - destruct (String.eqb_spec k k') as [-> | Hne].
    + split; [discriminate | intros H; exfalso; apply H; now left].
    + rewrite IH. split.
      * intros H [E | I]; [congruence | tauto].
      * tauto.
Qed.

Lemma dict_mem_false V k (d : dict V) :
  dict_mem k d = false <-> dict_lookup k d = None.
Proof.
  unfold dict_mem. destruct (dict_lookup k d); split; congruence.
Qed.

Lemma dict_mem_true V k (d : dict V) :
  dict_mem k d = true <-> exists v, dict_lookup k d = Some v.
Proof.
  unfold dict_mem. destruct (dict_lookup k d) as [v |]; split;
    try congruence; eauto.
  intros [v H]. discriminate.
Qed.

Lemma dict_lookup_snoc_new V k v (d : dict V) :
  dict_lookup k d = None -> dict_lookup k (d ++ [(k, v)])%list = Some v.
Proof.
  induction d as [| [k' v'] d IH]; simpl.
  - now rewrite String.eqb_refl.
  - destruct (String.eqb k k'); [discriminate | exact IH].
Qed.

Lemma keys_snoc c k v : keys (c ++ [(k, v)])%list = (keys c ++ [k])%list.
Proof. unfold keys. now rewrite map_app. Qed.

Lemma In_keys_remove k x (c : dict bytes) :
  In x (keys (dict_remove k c)) -> In x (keys c).
Proof.
  induction c as [| [k' v] c IH]; simpl; [tauto |].
  destruct (String.eqb k k'); simpl; tauto.
Qed.

Lemma NoDup_keys_remove k (c : dict bytes) :
  NoDup (keys c) ->
  NoDup (keys (dict_remove k c)) /\ ~ In k (keys (dict_remove k c)).
Proof.
  induction c as [| [k' v] c IH]; simpl; intros H.
  - split; [constructor | tauto].
  - inversion H as [| ? ? Hnotin Hnd]; subst.
    destruct (String.eqb_spec k k') as [-> | Hne]; simpl.
    + split; assumption.
    + destruct (IH Hnd) as [IH1 IH2]. split.
      * constructor; [| exact IH1].
        intro I. apply Hnotin. eapply In_keys_remove; exact I.
      * intros [E | I]; [congruence | tauto].
Qed.

Lemma length_dict_remove k v (c : dict bytes) :
  dict_lookup k c = Some v ->
  S (List.length (dict_remove k c)) = List.length c.
Proof.
  induction c as [| [k' v'] c IH]; simpl; [discriminate |].
  destruct (String.eqb k k'); simpl; intros H; [reflexivity |].
  now rewrite IH.
Qed.

Lemma NoDup_snoc (l : list string) x :
  NoDup l -> ~ In x l -> NoDup (l ++ [x]).
Proof.
  intros Hnd Hnotin. apply NoDup_app; [exact Hnd | repeat constructor; simpl; tauto |].
  intros a Ia [E | []]. subst. tauto.
Qed.

Lemma keys_tl (c : dict bytes) : keys (tl c) = tl (keys c).
Proof. destruct c; reflexivity. Qed.

Lemma NoDup_tl (l : list string) : NoDup l -> NoDup (tl l).
Proof. destruct l; simpl; [trivial | now inversion 1]. Qed.

Lemma In_tl (l : list string) x : In x (tl l) -> In x l.
Proof. destruct l; simpl; tauto. Qed.

(** ** The cache stays well formed *)

Lemma maxsize_pos : 0 < maxsize.
Proof. unfold maxsize. lia. Qed.

Lemma cache_get_wf key : framed wf_step (cache_get key).
Proof.
  intros s [Hnd Hlen]. unfold cache_get, state_of.
  destruct (dict_lookup key (cache s)) as [v |] eqn:E; simpl; [| now split].
  destruct (@NoDup_keys_remove key (cache s) Hnd) as [Hnd' Hnotin].
  split.
  - rewrite keys_snoc. now apply NoDup_snoc.
  - rewrite length_app; simpl. pose proof (@length_dict_remove key v (cache s) E). lia.
Qed.

Lemma cache_put_wf key data : framed wf_step (cache_put maxsize key data).
Proof.
  intros s [Hnd Hlen]. unfold cache_put, state_of.
  destruct (dict_mem key (cache s)) eqn:E; [now split |].
  apply dict_mem_false, dict_lookup_None in E.
  destruct (Nat.leb_spec maxsize (List.length (cache s))) as [Hfull | Hroom];
    cbn [snd set_cache cache].
  - split.
    + rewrite keys_snoc, keys_tl. apply NoDup_snoc.
      * now apply NoDup_tl.
      * intro I. apply E. now apply In_tl.
    + rewrite length_app; simpl.
      pose proof maxsize_pos.
      destruct (cache s); simpl in *; lia.
  - split.
    + rewrite keys_snoc. now apply NoDup_snoc.
    + rewrite length_app; simpl. lia.
Qed.

(** A leaf of a frame proof that does not touch the cache. *)
Ltac keeps_cache_leaf :=
  apply framed_keeps_cache_wf;
  first
    [ apply print_keeps | apply generate_free_tts_keeps
    | apply client_generate_keeps | apply chat_send_message_keeps
    | apply transcriber_transcribe_keeps | apply file_save_keeps
    | apply remove_temp_file_keeps | apply executor_shutdown_wait_keeps
    | apply future_result_keeps ];
  intros; reflexivity.

Ltac wf_frame :=
  frame_structure wf_step wf_step_refl wf_step_trans;
  try solve [ apply cache_get_wf | apply cache_put_wf | keeps_cache_leaf ].

Lemma cached_text_to_speech_wf w text :
  framed wf_step (cached_text_to_speech w text).
Proof.
  unfold cached_text_to_speech, lru_cache, cached_text_to_speech_wrapped, drain.
  wf_frame.
Qed.

Lemma generate_audio_wf w text : framed wf_step (generate_audio w text).
Proof.
  unfold generate_audio. wf_frame; apply cached_text_to_speech_wf.
Qed.

Lemma generate_introduction_wf w : framed wf_step (generate_introduction w).
Proof.
  unfold generate_introduction, introduction_text, getitem.
  wf_frame; apply cached_text_to_speech_wf.
Qed.

Lemma chat_endpoint_wf w request_json :
  framed wf_step (chat_endpoint w request_json).
Proof.
  unfold chat_endpoint, limit_message, with_executor_submit.
  wf_frame.
  apply (framed_submit wf_step_trans).
  - intros s t H. exact H.
  - apply generate_audio_wf.
Qed.

Lemma text_to_speech_wf w text : framed wf_step (text_to_speech w text).
Proof.
  unfold text_to_speech. wf_frame; apply cached_text_to_speech_wf.
Qed.

Lemma transcribe_with_assemblyai_wf w request_files :
  framed wf_step (transcribe_with_assemblyai w request_files).
Proof.
  unfold transcribe_with_assemblyai. wf_frame.
Qed.

Lemma handle_wf w r s : cache_wf (cache s) -> cache_wf (cache (handle w r s)).
Proof.
  destruct r; simpl.
  - apply generate_introduction_wf.
  - apply chat_endpoint_wf.
  - apply text_to_speech_wf.
  - trivial.
  - apply transcribe_with_assemblyai_wf.
Qed.

Lemma init_state_wf : cache_wf (cache init_state).
Proof. split; simpl; [constructor | lia]. Qed.

Lemma serve_wf w requests s :
  cache_wf (cache s) -> cache_wf (cache (serve w requests s)).
Proof.
  revert s. induction requests as [| r rs IH]; intros s H; simpl.
  - exact H.
  - apply IH, handle_wf, H.
Qed.

(** ** The stages, case by case *)

Lemma generate_free_tts_returns w text s :
  exists s1,
    generate_free_tts w text s
    = (Ok (free_result (snd (streamelements w text (free_calls s)))), s1).
Proof.
  unfold generate_free_tts, try_except, bind, requests_get, print, ret.
  destruct (streamelements w text (free_calls s)) as [d [response | e]]; simpl.
  - destruct (Nat.eqb (status_code response) 200); simpl; eauto.
  - eauto.
Qed.

Lemma cached_text_to_speech_hit w text s data :
  dict_lookup text (cache s) = Some data ->
  cached_text_to_speech w text s
  = (Ok data,
     set_cache (dict_remove text (cache s) ++ [(text, data)])%list s).
Proof.
  intros H. unfold cached_text_to_speech, lru_cache, bind, cache_get.
  now rewrite H.
Qed.

Lemma cached_text_to_speech_miss_ok w text s data :
  dict_lookup text (cache s) = None ->
  payload_bytes (snd (elevenlabs w text (paid_calls s))) = Some data ->
  cached_text_to_speech w text s
  = (Ok data,
     set_cache (stored (cache s) text data) (after_paid_call w text s)).
Proof.
  intros Hmiss Hok.
  unfold cached_text_to_speech, lru_cache, cached_text_to_speech_wrapped,
    client_generate, after_paid_call, stored, cache_get, bind.
  rewrite Hmiss. cbv beta iota.
  apply dict_mem_false in Hmiss.
  destruct (elevenlabs w text (paid_calls s)) as [d [[buf | chunks [e |]] | e]];
    simpl in Hok; try discriminate; injection Hok as <-;
    unfold bind, drain, ret, cache_put;
    cbn [cache set_clock set_paid_calls fst];
    rewrite Hmiss;
    destruct (Nat.leb maxsize (List.length (cache s))); reflexivity.
Qed.

Lemma cached_text_to_speech_miss_raise w text s :
  dict_lookup text (cache s) = None ->
  payload_bytes (snd (elevenlabs w text (paid_calls s))) = None ->
  exists e,
    cached_text_to_speech w text s = (Raise e, after_paid_call w text s).
Proof.
  intros Hmiss Hfail.
  unfold cached_text_to_speech, lru_cache, cached_text_to_speech_wrapped,
    client_generate, after_paid_call, cache_get, bind.
  rewrite Hmiss. cbv beta iota.
  destruct (elevenlabs w text (paid_calls s)) as [d [[buf | chunks [e |]] | e]];
    simpl in Hfail; try discriminate; simpl; eauto.
Qed.

Lemma generate_audio_unfold w text s :
  generate_audio w text s =
  match generate_free_tts w text s with
  | (Ok free, s1) =>
      if truthy free then (Ok free, s1)
      else
        match cached_text_to_speech w text s1 with
        | (Ok data, s2) =>
            if bytes_truthy data then (Ok (Some data), s2) else (Ok None, s2)
        | (Raise e, s2) =>
            (Ok None,
             set_stdout
               (stdout s2 ++ ["ElevenLabs error in chat: " ++ str_of_exn e]) s2)
        end
  | (Raise e, s1) =>
      match
        cached_text_to_speech w text
          (set_stdout
             (stdout s1 ++ ["Free TTS error in chat: " ++ str_of_exn e]) s1)
      with
      | (Ok data, s2) =>
          if bytes_truthy data then (Ok (Some data), s2) else (Ok None, s2)
      | (Raise e', s2) =>
          (Ok None,
           set_stdout
             (stdout s2 ++ ["ElevenLabs error in chat: " ++ str_of_exn e']) s2)
      end
  end.
Proof.
  unfold generate_audio, bind, try_except.
  destruct (generate_free_tts w text s) as [[free | e] s1]; simpl.
  - destruct (truthy free); simpl; [reflexivity |].
    destruct (cached_text_to_speech w text s1) as [[data | e] s2]; simpl;
      [destruct (bytes_truthy data) |]; reflexivity.
  - destruct (cached_text_to_speech w text _) as [[data | e'] s2]; simpl;
      [destruct (bytes_truthy data) |]; reflexivity.
Qed.

Lemma bytes_truthy_true data : bytes_truthy data = true <-> data <> [].
Proof. destruct data; simpl; split; congruence. Qed.

Lemma truthy_true free :
  truthy free = true <-> exists data, free = Some data /\ data <> [].
Proof.
  destruct free as [data |]; simpl.
  - rewrite bytes_truthy_true. split; [eauto | intros (d & [= ->] & H); exact H].
  - split; [discriminate | intros (d & H & _); discriminate].
Qed.

(** [generate_audio] returns, and what it returns is non-empty bytes or
    nothing. *)
Lemma generate_audio_returns w text s :
  exists r s',
    generate_audio w text s = (Ok r, s') /\
    (r = None \/ exists data, r = Some data /\ data <> []).
Proof.
  rewrite generate_audio_unfold.
  destruct (generate_free_tts_returns w text s) as [s1 ->].
  destruct (truthy _) eqn:T.
  - do 2 eexists; split; [reflexivity |]. right. now apply truthy_true.
  - destruct (cached_text_to_speech w text s1) as [[data | e] s2].
    + destruct (bytes_truthy data) eqn:B; do 2 eexists; split;
        try reflexivity; [right | left; reflexivity].
      exists data. split; [reflexivity | now apply bytes_truthy_true].
    + do 2 eexists; split; [reflexivity | now left].
Qed.

Lemma generate_introduction_returns w s :
  exists t a s',
    generate_introduction w s = (Ok [("text", JStr t); ("audio", a)], s') /\
    audio_field_ok a.
Proof.
  unfold generate_introduction, try_except, bind.
  destruct (introduction_text w s) as [[introduction | e] s0].
  - destruct (generate_free_tts_returns w introduction s0) as [s1 ->].
    destruct (free_result _) as [[| b data] |]; cbn [ret].
    2: { do 3 eexists; split; [reflexivity |]. right.
         exists (b :: data). split; [discriminate | reflexivity]. }
    all: destruct (cached_text_to_speech w introduction s1)
           as [[[| b data] | e] s2]; cbn [ret bytes_truthy print];
         do 3 eexists; (split; [reflexivity |]);
         try (left; reflexivity);
         right; exists (b :: data); (split; [discriminate | reflexivity]).
  - do 3 eexists; split; [reflexivity | left; reflexivity].
Qed.

(** ** The fallback synthesizer *)

(** C1.  For every text and every behaviour of the two providers,
    [generate_audio] returns: the value is non-empty bytes or [None],
    never a raised exception.  The greeting sequence of
    [generate_introduction] returns as well, with a text and with an
    audio entry that is null or the encoding of non-empty bytes.  When
    the free stage yields nothing and the cached paid stage raises,
    the exception is caught and the result is [None]. *)
Theorem synthesis_never_raises (w : World) (text : string) (s : State) :
  (exists r s',
      generate_audio w text s = (Ok r, s') /\
      (r = None \/ exists data, r = Some data /\ data <> [])) /\
  (exists t a s',
      generate_introduction w s = (Ok [("text", JStr t); ("audio", a)], s') /\
      audio_field_ok a) /\
  (forall free s1 e s2,
      generate_free_tts w text s = (Ok free, s1) ->
      truthy free = false ->
      cached_text_to_speech w text s1 = (Raise e, s2) ->
      result_of (generate_audio w text s) = Ok None).
Proof.
  split; [apply generate_audio_returns |].
  split; [apply generate_introduction_returns |].
  intros free s1 e s2 Hfree Hfalsy Hpaid.
  rewrite generate_audio_unfold, Hfree, Hfalsy, Hpaid. reflexivity.
Qed.

Lemma synthesis_never_raises_witness :
  result_of (generate_audio all_down_world "Hello" init_state) = Ok None.
Proof.
  destruct (synthesis_never_raises all_down_world "Hello" init_state)
    as (_ & _ & H).
  eapply H; reflexivity.
Defined.

(** C2.  [generate_audio] calls the free provider first.  When that
    call gives non-empty bytes they are returned at once, in the state
    the free call left: the paid provider has not been called and the
    cache is as it was.  Otherwise the cached paid path is called and
    its bytes are returned when they are not empty; when it returns
    empty bytes or raises, the result is [None].  In particular, on a
    text that is not cached, a failing free provider and a paid
    provider that produces non-empty bytes [B] give [B], and two
    failing providers give [None]. *)
Theorem fallback_ordering (w : World) (text : string) (s : State) :
  exists s1,
    let free := free_result (snd (streamelements w text (free_calls s))) in
    generate_free_tts w text s = (Ok free, s1) /\
    paid_calls s1 = paid_calls s /\
    cache s1 = cache s /\
    (forall data, free = Some data -> data <> [] ->
       generate_audio w text s = (Ok (Some data), s1)) /\
    (truthy free = false -> forall data s2,
       cached_text_to_speech w text s1 = (Ok data, s2) -> data <> [] ->
       generate_audio w text s = (Ok (Some data), s2)) /\
    (truthy free = false -> forall s2,
       cached_text_to_speech w text s1 = (Ok [], s2) ->
       generate_audio w text s = (Ok None, s2)) /\
    (truthy free = false -> forall e s2,
       cached_text_to_speech w text s1 = (Raise e, s2) ->
       result_of (generate_audio w text s) = Ok None) /\
    (truthy free = false -> dict_lookup text (cache s) = None ->
     forall B,
       payload_bytes (snd (elevenlabs w text (paid_calls s))) = Some B ->
       B <> [] ->
       result_of (generate_audio w text s) = Ok (Some B)) /\
    (truthy free = false -> dict_lookup text (cache s) = None ->
     payload_bytes (snd (elevenlabs w text (paid_calls s))) = None ->
     result_of (generate_audio w text s) = Ok None).
Proof.
  destruct (generate_free_tts_returns w text s) as [s1 Hfree].
  exists s1. cbv zeta.
  set (free := free_result _) in *.
  assert (Hpaid : paid_calls s1 = paid_calls s).
  { pose proof (@generate_free_tts_keeps _ paid_calls
                  (fun _ _ => eq_refl) (fun _ _ => eq_refl)
                  (fun _ _ => eq_refl) w text s) as K.
    unfold keeps, state_of in K. now rewrite Hfree in K. }
  assert (Hcache : cache s1 = cache s).
  { pose proof (@generate_free_tts_keeps _ cache
                  (fun _ _ => eq_refl) (fun _ _ => eq_refl)
                  (fun _ _ => eq_refl) w text s) as K.
    unfold keeps, state_of in K. now rewrite Hfree in K. }
  repeat split; try assumption.
  - intros data -> Hne. rewrite generate_audio_unfold, Hfree.
    apply bytes_truthy_true in Hne. simpl. now rewrite Hne.
  - intros Hfalsy data s2 Hc Hne.
    rewrite generate_audio_unfold, Hfree, Hfalsy, Hc.
    apply bytes_truthy_true in Hne. now rewrite Hne.
  - intros Hfalsy s2 Hc.
    now rewrite generate_audio_unfold, Hfree, Hfalsy, Hc.
  - intros Hfalsy e s2 Hc.
    now rewrite generate_audio_unfold, Hfree, Hfalsy, Hc.
  - intros Hfalsy Hmiss B HB Hne.
    rewrite generate_audio_unfold, Hfree, Hfalsy.
    rewrite <- Hcache in Hmiss. rewrite <- Hpaid in HB.
    rewrite (cached_text_to_speech_miss_ok w text s1 Hmiss HB).
    apply bytes_truthy_true in Hne. now rewrite Hne.
  - intros Hfalsy Hmiss Hfail.
    rewrite generate_audio_unfold, Hfree, Hfalsy.
    rewrite <- Hcache in Hmiss. rewrite <- Hpaid in Hfail.
    destruct (cached_text_to_speech_miss_raise w text s1 Hmiss Hfail) as [e ->].
    reflexivity.
Qed.

Lemma fallback_ordering_witness :
  result_of (generate_audio free_down_world "Hello" init_state)
  = Ok (Some sample_paid_audio)
  /\ result_of (generate_audio all_down_world "Hello" init_state) = Ok None.
Proof.
  split.
  - destruct (fallback_ordering free_down_world "Hello" init_state)
      as (s1 & _ & _ & _ & _ & _ & _ & _ & H & _).
    apply H; [reflexivity | reflexivity | reflexivity | discriminate].
  - destruct (fallback_ordering all_down_world "Hello" init_state)
      as (s1 & _ & _ & _ & _ & _ & _ & _ & _ & H).
    apply H; reflexivity.
Defined.

(** ** The synthesis cache *)

Lemma dict_mem_snoc V k v (d : dict V) : dict_mem k (d ++ [(k, v)])%list = true.
Proof.
  unfold dict_mem. induction d as [| [k' v'] d IH]; simpl.
  - now rewrite String.eqb_refl.
  - destruct (String.eqb k k'); [reflexivity | exact IH].
Qed.

Lemma dict_lookup_tl_None V k (d : dict V) :
  dict_lookup k d = None -> dict_lookup k (tl d) = None.
Proof.
  destruct d as [| [k' v] d]; simpl; [trivial |].
  destruct (String.eqb k k'); [discriminate | trivial].
Qed.

Lemma dict_lookup_stored c key data :
  dict_lookup key c = None -> dict_lookup key (stored c key data) = Some data.
Proof.
  intros H. unfold stored.
  destruct (Nat.leb maxsize (List.length c)); apply dict_lookup_snoc_new;
    [now apply dict_lookup_tl_None | exact H].
Qed.

Lemma existsb_keys key (c : dict bytes) :
  existsb (String.eqb key) (keys c) = dict_mem key c.
Proof.
  unfold dict_mem. induction c as [| [k v] c IH]; simpl; [reflexivity |].
  destruct (String.eqb key k); [reflexivity | exact IH].
Qed.

Lemma keys_dict_remove key (c : dict bytes) :
  keys (dict_remove key c) = remove_first key (keys c).
Proof.
  induction c as [| [k v] c IH]; simpl; [reflexivity |].
  destruct (String.eqb key k); simpl; [reflexivity | now rewrite IH].
Qed.

Lemma length_keys (c : dict bytes) : List.length (keys c) = List.length c.
Proof. apply length_map. Qed.

Lemma keys_stored c key data :
  dict_mem key c = false ->
  keys (stored c key data) = recency_after key (keys c).
Proof.
  intros H. unfold stored, recency_after.
  rewrite existsb_keys, H, length_keys.
  destruct (Nat.leb maxsize (List.length c)); rewrite keys_snoc;
    [now rewrite keys_tl | reflexivity].
Qed.

(** A call that returns leaves the keys in least-recently-used order. *)
Lemma cached_text_to_speech_recency w text s data :
  result_of (cached_text_to_speech w text s) = Ok data ->
  keys (cache (state_of (cached_text_to_speech w text s)))
  = recency_after text (keys (cache s)).
Proof.
  intros Hok.
  destruct (dict_lookup text (cache s)) as [v |] eqn:E.
  - rewrite (cached_text_to_speech_hit w text s E). cbn [state_of snd].
    unfold recency_after. rewrite existsb_keys.
    assert (M : dict_mem text (cache s) = true)
      by (apply dict_mem_true; eauto).
    rewrite M. cbn [cache set_cache].
    now rewrite keys_snoc, keys_dict_remove.
  - destruct (payload_bytes (snd (elevenlabs w text (paid_calls s))))
      as [b |] eqn:P.
    + rewrite (cached_text_to_speech_miss_ok w text s E P).
      cbn [state_of snd cache set_cache].
      apply keys_stored. now apply dict_mem_false.
    + destruct (cached_text_to_speech_miss_raise w text s E P) as [e R].
      rewrite R in Hok. discriminate.
Qed.

(** With a healthy paid provider every call returns. *)
Lemma cached_text_to_speech_healthy w text s :
  paid_healthy w ->
  exists data, result_of (cached_text_to_speech w text s) = Ok data.
Proof.
  intros Hw.
  destruct (dict_lookup text (cache s)) as [v |] eqn:E.
  - rewrite (cached_text_to_speech_hit w text s E). now eexists.
  - destruct (payload_bytes (snd (elevenlabs w text (paid_calls s))))
      as [b |] eqn:P.
    + rewrite (cached_text_to_speech_miss_ok w text s E P). now eexists.
    + exfalso. exact (Hw text (paid_calls s) P).
Qed.

Lemma synthesize_all_app w l1 l2 s :
  synthesize_all w (l1 ++ l2) s = synthesize_all w l2 (synthesize_all w l1 s).
Proof. unfold synthesize_all. apply fold_left_app. Qed.

Lemma existsb_eqb_false key (l : list string) :
  ~ In key l -> existsb (String.eqb key) l = false.
Proof.
  intros H. destruct (existsb (String.eqb key) l) eqn:E; [| reflexivity].
  apply existsb_exists in E. destruct E as (x & I & Hx).
  apply String.eqb_eq in Hx. subst. contradiction.
Qed.

(** Filling a cache that has room: the new keys line up after the old
    ones, in the order of the calls. *)
Lemma synthesize_all_fill w :
  paid_healthy w ->
  forall texts s,
    NoDup (keys (cache s) ++ texts) ->
    List.length (cache s) + List.length texts <= maxsize ->
    keys (cache (synthesize_all w texts s)) = (keys (cache s) ++ texts)%list.
Proof.
  intros Hw. induction texts as [| text texts IH]; intros s Hnd Hlen.
  - simpl. now rewrite app_nil_r.
  - cbn [synthesize_all fold_left].
    fold (synthesize_all w texts (state_of (cached_text_to_speech w text s))).
    destruct (cached_text_to_speech_healthy text s Hw) as [data Hok].
    pose proof (cached_text_to_speech_recency w text s Hok) as Hk.
    assert (Hnotin : ~ In text (keys (cache s))).
    { intro I. apply NoDup_remove_2 in Hnd. apply Hnd.
      apply in_or_app. now left. }
    unfold recency_after in Hk.
    rewrite (@existsb_eqb_false text _ Hnotin), length_keys in Hk.
    simpl in Hlen.
    destruct (Nat.leb_spec maxsize (List.length (cache s))) as [Hfull | _];
      [lia |].
    rewrite IH.
    + rewrite Hk, <- app_assoc. reflexivity.
    + rewrite Hk, <- app_assoc. exact Hnd.
    + rewrite <- length_keys, Hk, length_app, length_keys. simpl. lia.
Qed.

Lemma distinct_NoDup l : distinct l = true -> NoDup l.
Proof.
  induction l as [| x rest IH]; simpl; intros H; [constructor |].
  apply andb_true_iff in H. destruct H as [Hx Hrest].
  constructor; [| now apply IH].
  intro I. apply negb_true_iff in Hx.
  assert (E : existsb (String.eqb x) rest = true)
    by (apply existsb_exists; exists x; split; [exact I | apply String.eqb_refl]).
  congruence.
Qed.

Lemma cached_text_to_speech_again w text s data :
  NoDup (keys (cache s)) ->
  result_of (cached_text_to_speech w text s) = Ok data ->
  dict_lookup text (cache (state_of (cached_text_to_speech w text s)))
  = Some data.
Proof.
  intros Hnd Hok.
  destruct (dict_lookup text (cache s)) as [v |] eqn:E.
  - rewrite (cached_text_to_speech_hit w text s E) in *.
    cbn [result_of state_of fst snd cache set_cache] in *.
    injection Hok as ->.
    apply dict_lookup_snoc_new, dict_lookup_None.
    apply (@NoDup_keys_remove text (cache s) Hnd).
  - destruct (payload_bytes (snd (elevenlabs w text (paid_calls s))))
      as [b |] eqn:P.
    + rewrite (cached_text_to_speech_miss_ok w text s E P) in *.
      cbn [result_of state_of fst snd cache set_cache] in *.
      injection Hok as ->. now apply dict_lookup_stored.
    + destruct (cached_text_to_speech_miss_raise w text s E P) as [e R].
      rewrite R in Hok. discriminate.
Qed.

(** C4.  The cache of [cached_text_to_speech] holds at most 128
    entries with distinct keys, in every state the server can reach and
    across every call.  A call on a text that is not cached, made when
    128 entries are present, drops the least recently used entry and
    stores the new one as the most recent.  A lookup right after an
    entry is stored hits and gives the stored bytes; at the level of
    the function, a call that returned [data] is followed by a call
    that returns [data] again without asking the provider.  For 128
    distinct texts followed by a new one the first text is the one
    evicted, unless it was asked for again in between, in which case
    the second is. *)
Theorem cache_bounded_lru (w : World) :
  (forall requests, cache_wf (cache (serve w requests init_state))) /\
  (forall text s,
      cache_wf (cache s) ->
      cache_wf (cache (state_of (cached_text_to_speech w text s)))) /\
  (forall text s data,
      List.length (cache s) = maxsize ->
      dict_lookup text (cache s) = None ->
      payload_bytes (snd (elevenlabs w text (paid_calls s))) = Some data ->
      cache (state_of (cached_text_to_speech w text s))
      = (tl (cache s) ++ [(text, data)])%list) /\
  (forall key s data,
      dict_lookup key (cache s) = None ->
      result_of (cache_get key (state_of (cache_put maxsize key data s)))
      = Ok (Some data)) /\
  (forall text s data,
      NoDup (keys (cache s)) ->
      result_of (cached_text_to_speech w text s) = Ok data ->
      let s1 := state_of (cached_text_to_speech w text s) in
      result_of (cached_text_to_speech w text s1) = Ok data /\
      paid_calls (state_of (cached_text_to_speech w text s1)) = paid_calls s1) /\
  (paid_healthy w ->
   forall texts text,
     NoDup (texts ++ [text]) ->
     List.length texts = maxsize ->
     keys (cache (synthesize_all w (texts ++ [text]) init_state))
     = (tl texts ++ [text])%list /\
     keys (cache (synthesize_all w (texts ++ [hd "" texts; text]) init_state))
     = (tl (tl texts) ++ [hd "" texts; text])%list).
Proof.
  split; [intros requests; apply serve_wf, init_state_wf |].
  split; [intros text s; apply cached_text_to_speech_wf |].
  split.
  { intros text s data Hfull Hmiss Hok.
    rewrite (cached_text_to_speech_miss_ok w text s Hmiss Hok).
    cbn [state_of snd cache set_cache]. unfold stored.
    now rewrite Hfull, Nat.leb_refl. }
  split.
  { intros key s data Hmiss.
    unfold cache_put, cache_get, state_of, result_of.
    apply dict_mem_false in Hmiss. rewrite Hmiss.
    apply dict_mem_false in Hmiss.
    destruct (Nat.leb maxsize (List.length (cache s)));
      cbn [snd cache set_cache].
    - rewrite (@dict_lookup_snoc_new _ key data (tl (cache s)));
        [reflexivity | now apply dict_lookup_tl_None].
    - rewrite (@dict_lookup_snoc_new _ key data (cache s) Hmiss). reflexivity. }
  split.
  { intros text s data Hnd Hok s1.
    pose proof (cached_text_to_speech_again w text s Hnd Hok) as Hhit.
    fold s1 in Hhit.
    rewrite (cached_text_to_speech_hit w text s1 Hhit). split; reflexivity. }
  intros Hw texts text Hnd Hlen.
  assert (Hnd' : NoDup texts) by (now apply NoDup_app_remove_r in Hnd).
  assert (Hnotin : ~ In text texts).
  { apply NoDup_remove_2 in Hnd. now rewrite app_nil_r in Hnd. }
  assert (Hfill : keys (cache (synthesize_all w texts init_state)) = texts).
  { rewrite (synthesize_all_fill Hw); simpl; [reflexivity | exact Hnd' | lia]. }
  set (s0 := synthesize_all w texts init_state) in *.
  split.
  - rewrite synthesize_all_app. fold s0. cbn [synthesize_all fold_left].
    destruct (cached_text_to_speech_healthy text s0 Hw) as [data Hok].
    rewrite (cached_text_to_speech_recency w text s0 Hok), Hfill.
    unfold recency_after.
    rewrite (@existsb_eqb_false text texts Hnotin), Hlen, Nat.leb_refl.
    reflexivity.
  - rewrite synthesize_all_app. fold s0. cbn [synthesize_all fold_left].
    destruct texts as [| k0 rest]; [unfold maxsize in Hlen; discriminate |].
    cbn [hd tl] in *.
    destruct (cached_text_to_speech_healthy k0 s0 Hw) as [d0 Hok0].
    pose proof (cached_text_to_speech_recency w k0 s0 Hok0) as Hk0.
    rewrite Hfill in Hk0. unfold recency_after in Hk0.
    cbn [existsb remove_first] in Hk0.
    rewrite String.eqb_refl in Hk0. cbn [orb] in Hk0.
    set (s1 := state_of (cached_text_to_speech w k0 s0)) in *.
    destruct (cached_text_to_speech_healthy text s1 Hw) as [d1 Hok1].
    rewrite (cached_text_to_speech_recency w text s1 Hok1), Hk0.
    unfold recency_after.
    assert (Hnotin1 : ~ In text (rest ++ [k0])).
    { intro I. apply Hnotin. apply in_app_or in I. simpl in *. tauto. }
    rewrite (@existsb_eqb_false text _ Hnotin1).
    assert (Hlen1 : List.length (rest ++ [k0]) = maxsize)
      by (rewrite length_app; simpl in *; lia).
    rewrite Hlen1, Nat.leb_refl.
    destruct rest as [| k1 rest'];
      [exfalso; unfold maxsize in Hlen; simpl in Hlen; lia |].
    simpl. now rewrite <- app_assoc.
Qed.

Lemma cache_bounded_lru_witness :
  keys (cache (synthesize_all free_down_world
                 (sample_texts 128 ++ ["128"]) init_state))
  = (tl (sample_texts 128) ++ ["128"])%list
  /\ cache (state_of
              (cached_text_to_speech free_down_world "128"
                 (synthesize_all free_down_world (sample_texts 128) init_state)))
     = (tl (cache (synthesize_all free_down_world (sample_texts 128) init_state))
        ++ [("128", sample_paid_audio)])%list.
Proof.
  destruct (cache_bounded_lru free_down_world)
    as (_ & _ & Hevict & _ & _ & Hseq).
  split.
  - refine (proj1 (Hseq _ (sample_texts 128) "128" _ _)).
    + unfold paid_healthy. intros text n. simpl. discriminate.
    + apply distinct_NoDup. vm_compute. reflexivity.
    + vm_compute. reflexivity.
  - apply Hevict; vm_compute; reflexivity.
Defined.

(** ** Memoization *)

Lemma generate_free_tts_state w text s :
  paid_calls (state_of (generate_free_tts w text s)) = paid_calls s /\
  cache (state_of (generate_free_tts w text s)) = cache s.
Proof.
  split.
  - apply (@generate_free_tts_keeps _ paid_calls); reflexivity.
  - apply (@generate_free_tts_keeps _ cache); reflexivity.
Qed.

Lemma cached_text_to_speech_quiet w text s :
  dict_mem text (cache s) = true ->
  paid_calls (state_of (cached_text_to_speech w text s)) = paid_calls s /\
  dict_mem text (cache (state_of (cached_text_to_speech w text s))) = true.
Proof.
  intros Hmem. apply dict_mem_true in Hmem. destruct Hmem as [v Hv].
  rewrite (cached_text_to_speech_hit w text s Hv).
  cbn [state_of snd cache set_cache]. split; [reflexivity | apply dict_mem_snoc].
Qed.

Lemma generate_audio_quiet w text s :
  dict_mem text (cache s) = true ->
  paid_calls (state_of (generate_audio w text s)) = paid_calls s /\
  dict_mem text (cache (state_of (generate_audio w text s))) = true.
Proof.
  intros Hmem.
  destruct (generate_free_tts_state w text s) as [Hp Hc].
  rewrite generate_audio_unfold.
  destruct (generate_free_tts_returns w text s) as [s1 E].
  rewrite E in *. cbn [state_of snd] in Hp, Hc.
  destruct (truthy _).
  - cbn [state_of snd]. now rewrite Hp, Hc.
  - rewrite <- Hc in Hmem.
    destruct (cached_text_to_speech_quiet w text s1 Hmem) as [Hp2 Hm2].
    destruct (cached_text_to_speech w text s1) as [[data | e] s2];
      cbn [state_of snd] in *.
    + destruct (bytes_truthy data); cbn [state_of snd]; split; congruence.
    + cbn [state_of snd set_stdout paid_calls cache].
      split; [congruence | exact Hm2].
Qed.

Lemma repeat_generate_audio_quiet w text n :
  forall s,
    dict_mem text (cache s) = true ->
    paid_calls (repeat_generate_audio w text n s) = paid_calls s.
Proof.
  induction n as [| n IH]; intros s Hmem; simpl; [reflexivity |].
  destruct (generate_audio_quiet w text s Hmem) as [Hp Hm].
  now rewrite IH, Hp.
Qed.

Lemma cached_text_to_speech_caches w text s data :
  result_of (cached_text_to_speech w text s) = Ok data ->
  dict_mem text (cache (state_of (cached_text_to_speech w text s))) = true.
Proof.
  intros Hok.
  destruct (dict_lookup text (cache s)) as [v |] eqn:E.
  - apply cached_text_to_speech_quiet, dict_mem_true. eauto.
  - destruct (payload_bytes (snd (elevenlabs w text (paid_calls s))))
      as [b |] eqn:P.
    + rewrite (cached_text_to_speech_miss_ok w text s E P).
      cbn [state_of snd cache set_cache]. unfold stored.
      destruct (Nat.leb _ _); apply dict_mem_snoc.
    + destruct (cached_text_to_speech_miss_raise w text s E P) as [e R].
      rewrite R in Hok. discriminate.
Qed.

(** C5.  On a text that is cached, [cached_text_to_speech] returns the
    cached bytes and the paid provider's client is not called.  Once a
    call of [cached_text_to_speech] on a text has returned, any number
    of [generate_audio] calls on that text leave the number of client
    calls unchanged, whatever the free provider does.  On a text that
    is not cached the client is called exactly once, and when the call
    returns bytes they are the provider's and they are in the cache
    under that text in the state the call returns in. *)
Theorem memoization (w : World) (text : string) (s : State) :
  (forall data,
      dict_lookup text (cache s) = Some data ->
      result_of (cached_text_to_speech w text s) = Ok data /\
      paid_calls (state_of (cached_text_to_speech w text s)) = paid_calls s) /\
  (forall data n,
      result_of (cached_text_to_speech w text s) = Ok data ->
      let s1 := state_of (cached_text_to_speech w text s) in
      paid_calls (repeat_generate_audio w text n s1) = paid_calls s1) /\
  (dict_lookup text (cache s) = None ->
   paid_calls (state_of (cached_text_to_speech w text s)) = S (paid_calls s) /\
   forall data,
     result_of (cached_text_to_speech w text s) = Ok data ->
     payload_bytes (snd (elevenlabs w text (paid_calls s))) = Some data /\
     dict_lookup text (cache (state_of (cached_text_to_speech w text s)))
     = Some data).
Proof.
  split.
  { intros data Hhit. rewrite (cached_text_to_speech_hit w text s Hhit).
    split; reflexivity. }
  split.
  { intros data n Hok s1. apply repeat_generate_audio_quiet.
    exact (cached_text_to_speech_caches w text s Hok). }
  intros Hmiss.
  destruct (payload_bytes (snd (elevenlabs w text (paid_calls s))))
    as [b |] eqn:P.
  - rewrite (cached_text_to_speech_miss_ok w text s Hmiss P).
    cbn [state_of result_of fst snd cache set_cache].
    split; [reflexivity |].
    intros data [= <-]. split; [reflexivity | now apply dict_lookup_stored].
  - destruct (cached_text_to_speech_miss_raise w text s Hmiss P) as [e ->].
    split; [reflexivity | intros data H; discriminate H].
Qed.

Lemma memoization_witness :
  paid_calls (state_of (cached_text_to_speech free_down_world "Hello" init_state))
  = 1
  /\ paid_calls
       (repeat_generate_audio free_down_world "Hello" 5
          (state_of (cached_text_to_speech free_down_world "Hello" init_state)))
     = 1.
Proof.
  destruct (memoization free_down_world "Hello" init_state)
    as (_ & Hrepeat & Hmiss).
  split.
  - apply Hmiss. reflexivity.
  - rewrite (Hrepeat sample_paid_audio 5); [apply Hmiss |]; reflexivity.
Defined.

(** ** The chat route *)

Lemma length_string_app (a b : string) :
  String.length (a ++ b) = String.length a + String.length b.
Proof. induction a as [| c a IH]; simpl; [reflexivity | now rewrite IH]. Qed.

Lemma length_substring_prefix n :
  forall s, n <= String.length s -> String.length (substring 0 n s) = n.
Proof.
  induction n as [| n IH]; intros [| c s] H; simpl in *;
    try reflexivity; try lia.
  rewrite IH; [reflexivity | lia].
Qed.

(** A leaf of a frame proof for a component [f] of the state. *)
Ltac keeps_leaf :=
  first
    [ apply print_keeps | apply generate_audio_keeps
    | apply cached_text_to_speech_keeps | apply generate_free_tts_keeps
    | apply chat_send_message_keeps | apply executor_shutdown_wait_keeps
    | apply future_result_keeps ];
  intros; reflexivity.

(** What follows [chat.send_message] in [chat_endpoint] sends nothing. *)
Lemma sent_after_send w x (K : string -> M Response) (h : exn -> M Response) s :
  (forall t, framed (keeps sent) (K t)) ->
  (forall e, framed (keeps sent) (h e)) ->
  sent (state_of
          (try_except
             (bind (ret x) (fun um => bind (chat_send_message w um) K)) h s))
  = (sent s ++ [x])%list.
Proof.
  intros HK Hh. unfold try_except, bind, ret, chat_send_message, state_of.
  destruct (gemini w x (List.length (sent s))) as [d [t | e]].
  - set (s1 := set_clock _ _).
    pose proof (HK t s1) as Ht. unfold keeps, state_of in Ht.
    destruct (K t s1) as [[resp | e] s2]; cbn [snd] in *.
    + exact Ht.
    + pose proof (Hh e s2) as He. unfold keeps, state_of in He.
      rewrite He, Ht. reflexivity.
  - set (s1 := set_clock _ _).
    pose proof (Hh e s1) as He. unfold keeps, state_of in He.
    rewrite He. reflexivity.
Qed.

Lemma chat_endpoint_sent w request_json m s :
  dict_get "message" request_json = JStr m ->
  sent (state_of (chat_endpoint w request_json s))
  = (sent s
     ++ [if Nat.ltb 500 (String.length m)
         then (substring 0 500 m ++ "...")%string else m])%list.
Proof.
  intros H. unfold chat_endpoint. rewrite H. unfold limit_message.
  destruct (Nat.ltb 500 (String.length m));
    apply sent_after_send; intros; unfold with_executor_submit;
    frame_structure (keeps sent) (keeps_refl sent) (@keeps_trans _ sent);
    try keeps_leaf;
    (apply (framed_submit (@keeps_trans _ sent));
     [intros; reflexivity | keeps_leaf]).
Qed.

(** C6.  When the [message] of a chat request is a string, exactly one
    message is forwarded to the conversational backend.  For a message
    of more than 500 characters it is the first 500 characters followed
    by the marker ["..."], 503 characters in all; a message of at most
    500 characters is forwarded as it is. *)
Theorem chat_input_truncation (w : World) (request_json : dict json)
  (m : string) (s : State) :
  dict_get "message" request_json = JStr m ->
  exists forwarded,
    sent (state_of (chat_endpoint w request_json s))
    = (sent s ++ [forwarded])%list /\
    (500 < String.length m ->
     forwarded = substring 0 500 m ++ "..." /\
     String.length forwarded = 503) /\
    (String.length m <= 500 -> forwarded = m).
Proof.
  intros H. eexists. split; [exact (@chat_endpoint_sent w request_json m s H) |].
  split.
  - intros Hlong. apply Nat.ltb_lt in Hlong as Hb. rewrite Hb.
    split; [reflexivity |].
    rewrite length_string_app, length_substring_prefix; [reflexivity | lia].
  - intros Hshort. apply Nat.ltb_ge in Hshort. now rewrite Hshort.
Qed.

Lemma chat_input_truncation_witness :
  exists forwarded,
    sent (state_of (chat_endpoint healthy_world
                      [("message", JStr (letters 600))] init_state))
    = [forwarded]
    /\ String.length forwarded = 503.
Proof.
  destruct (@chat_input_truncation healthy_world
              [("message", JStr (letters 600))] (letters 600) init_state
              eq_refl)
    as (forwarded & Hsent & Hlong & _).
  exists forwarded. split; [exact Hsent |].
  apply Hlong. apply Nat.ltb_lt. vm_compute. reflexivity.
Defined.

(** C10.  A chat request whose payload has no [message] field, or has
    a null one, is answered, not failed: taking the length of the
    missing message raises inside the outer [try], the conversational
    backend and the providers are not called, and the response is the
    fixed apology with a null audio and the status [api_error]. *)
Theorem chat_missing_message (w : World) (request_json : dict json)
  (s : State) :
  dict_get "message" request_json = JNull ->
  chat_endpoint w request_json s
  = (Ok (jsonify [("response", JStr api_error_text);
                  ("audio", JNull);
                  ("status", JStr "api_error")]),
     set_stdout
       (stdout s
        ++ ["Error in chat endpoint: object of type 'NoneType' has no len()"])
       s).
Proof.
  intros H. unfold chat_endpoint. rewrite H. reflexivity.
Qed.

Lemma chat_missing_message_witness :
  result_of (chat_endpoint healthy_world [] init_state)
  = Ok (jsonify [("response", JStr api_error_text);
                 ("audio", JNull);
                 ("status", JStr "api_error")])
  /\ sent (state_of (chat_endpoint healthy_world [] init_state)) = [].
Proof.
  rewrite (@chat_missing_message healthy_world [] init_state eq_refl).
  split; reflexivity.
Defined.

(** ** The on-demand audio route *)

(** C9.  [text_to_speech] always answers.  The free provider is not
    called.  When [cached_text_to_speech] returns bytes, the answer is
    those bytes as one buffer of type [audio/mpeg]; a stream from the
    provider arrives as the concatenation of its chunks.  When
    [cached_text_to_speech] raises, the exception is caught and the
    answer is a JSON error payload with status 500. *)
Theorem on_demand_audio (w : World) (text : string) (s : State) :
  free_calls (state_of (text_to_speech w text s)) = free_calls s /\
  (forall data s1,
      cached_text_to_speech w text s = (Ok data, s1) ->
      text_to_speech w text s
      = (Ok (mkResponse 200 (RawBody "audio/mpeg" data)), s1)) /\
  (forall e s1,
      cached_text_to_speech w text s = (Raise e, s1) ->
      text_to_speech w text s
      = (Ok (jsonify_status [("error", JStr "Failed to generate audio")] 500),
         set_stdout
           (stdout s1 ++ ["Error generating audio: " ++ str_of_exn e]) s1) /\
      server_error 500 = true) /\
  (forall chunks,
      dict_lookup text (cache s) = None ->
      snd (elevenlabs w text (paid_calls s)) = Ok (Stream chunks None) ->
      result_of (text_to_speech w text s)
      = Ok (mkResponse 200 (RawBody "audio/mpeg" (join_bytes chunks)))).
Proof.
  split.
  { assert (K : framed (keeps free_calls) (text_to_speech w text)).
    { unfold text_to_speech.
      frame_structure (keeps free_calls) (keeps_refl free_calls)
        (@keeps_trans _ free_calls); keeps_leaf. }
    apply K. }
  split.
  { intros data s1 H. unfold text_to_speech, try_except, bind.
    now rewrite H. }
  split.
  { intros e s1 H. unfold text_to_speech, try_except, bind.
    rewrite H. split; reflexivity. }
  intros chunks Hmiss Hstream.
  assert (P : payload_bytes (snd (elevenlabs w text (paid_calls s)))
              = Some (join_bytes chunks)) by (now rewrite Hstream).
  unfold text_to_speech, try_except, bind.
  now rewrite (cached_text_to_speech_miss_ok w text s Hmiss P).
Qed.

Lemma on_demand_audio_witness :
  result_of (text_to_speech healthy_world "Hello" init_state)
  = Ok (mkResponse 200 (RawBody "audio/mpeg" sample_paid_audio))
  /\ result_of (text_to_speech all_down_world "Hello" init_state)
     = Ok (jsonify_status [("error", JStr "Failed to generate audio")] 500).
Proof.
  split.
  - destruct (on_demand_audio healthy_world "Hello" init_state)
      as (_ & _ & _ & H).
    apply (H [[xff; xfb]; [x90; x00]]); reflexivity.
  - destruct (on_demand_audio all_down_world "Hello" init_state)
      as (_ & _ & H & _).
    destruct (H (Exn "ApiError" "quota_exceeded")
                (after_paid_call all_down_world "Hello" init_state) eq_refl)
      as [E _].
    rewrite E. reflexivity.
Defined.

(** ** The transcription route *)

Lemma transcribe_no_audio w request_files s :
  dict_lookup "audio" request_files = None ->
  transcribe_with_assemblyai w request_files s
  = (Ok (jsonify_status [("error", JStr "No audio file provided")] 400), s).
Proof.
  intros H. unfold transcribe_with_assemblyai. now rewrite H.
Qed.

Lemma transcribe_unconfigured w request_files s audio :
  dict_lookup "audio" request_files = Some audio ->
  save_fault w = None ->
  key_unconfigured (ASSEMBLY_AI_API_KEY w) = true ->
  result_of (transcribe_with_assemblyai w request_files s)
  = Ok (jsonify_status
          [("transcript", JStr "");
           ("error", JStr "AssemblyAI API key is not configured. Please update api_key.json with your key.");
           ("status", JStr "error")] 400).
Proof.
  intros Hfile Hsave Hkey.
  unfold transcribe_with_assemblyai, file_save, try_except, bind.
  rewrite Hfile, Hsave, Hkey. reflexivity.
Qed.

Lemma transcribe_backend_raises w request_files s audio e :
  dict_lookup "audio" request_files = Some audio ->
  save_fault w = None ->
  key_unconfigured (ASSEMBLY_AI_API_KEY w) = false ->
  snd (assemblyai w audio (stt_calls s)) = Raise e ->
  result_of (transcribe_with_assemblyai w request_files s)
  = Ok (jsonify_status
          [("transcript", JStr "");
           ("error", JStr ("AssemblyAI error: " ++ str_of_exn e));
           ("status", JStr "error")] 500).
Proof.
  intros Hfile Hsave Hkey Hraise.
  unfold transcribe_with_assemblyai, file_save, try_except, bind,
    transcriber_transcribe, print.
  rewrite Hfile, Hsave, Hkey. cbn [temp_file set_temp_file set_stdout stt_calls].
  destruct (assemblyai w audio (stt_calls s)) as [d r].
  cbn [snd] in Hraise. subst r. reflexivity.
Qed.

(** C7, as amended.  [/transcribe_audio] answers 400, a client error,
    when no audio file is attached, and also 400 when a file is
    attached and the recogniser's key is not configured.  It answers
    500, a server error, when the key is configured and the
    recogniser's call raises.  (The attached file is taken to be saved
    without fault.) *)
Theorem transcription_statuses (w : World) (request_files : dict bytes)
  (s : State) :
  (dict_lookup "audio" request_files = None ->
   exists response,
     result_of (transcribe_with_assemblyai w request_files s) = Ok response /\
     http_status response = 400 /\
     client_error (http_status response) = true) /\
  (forall audio,
      dict_lookup "audio" request_files = Some audio ->
      save_fault w = None ->
      key_unconfigured (ASSEMBLY_AI_API_KEY w) = true ->
      exists response,
        result_of (transcribe_with_assemblyai w request_files s) = Ok response /\
        http_status response = 400 /\
        client_error (http_status response) = true /\
        field "status" response = Some (JStr "error")) /\
  (forall audio e,
      dict_lookup "audio" request_files = Some audio ->
      save_fault w = None ->
      key_unconfigured (ASSEMBLY_AI_API_KEY w) = false ->
      snd (assemblyai w audio (stt_calls s)) = Raise e ->
      exists response,
        result_of (transcribe_with_assemblyai w request_files s) = Ok response /\
        http_status response = 500 /\
        server_error (http_status response) = true /\
        field "error" response
        = Some (JStr ("AssemblyAI error: " ++ str_of_exn e))).
Proof.
  split.
  { intros H. rewrite (transcribe_no_audio w request_files s H).
    eexists. split; [reflexivity |]. split; reflexivity. }
  split.
  { intros audio Hfile Hsave Hkey.
    rewrite (@transcribe_unconfigured w request_files s audio Hfile Hsave Hkey).
    eexists. split; [reflexivity |]. repeat split. }
  intros audio e Hfile Hsave Hkey Hraise.
  rewrite (@transcribe_backend_raises w request_files s audio e
             Hfile Hsave Hkey Hraise).
  eexists. split; [reflexivity |]. repeat split.
Qed.

Lemma transcription_statuses_witness :
  (exists response,
      result_of (transcribe_with_assemblyai healthy_world
                   [("audio", sample_audio)] init_state) = Ok response /\
      http_status response = 400)
  /\ (exists response,
         result_of (transcribe_with_assemblyai stt_failing_world
                      [("audio", sample_audio)] init_state) = Ok response /\
         http_status response = 500).
Proof.
  split.
  - destruct (transcription_statuses healthy_world
                [("audio", sample_audio)] init_state) as (_ & H & _).
    destruct (H sample_audio eq_refl eq_refl eq_refl)
      as (response & Hr & Hs & _).
    exists response. split; assumption.
  - destruct (transcription_statuses stt_failing_world
                [("audio", sample_audio)] init_state) as (_ & _ & H).
    destruct (H sample_audio (Exn "TranscriptError" "upload failed")
                eq_refl eq_refl eq_refl eq_refl)
      as (response & Hr & Hs & _).
    exists response. split; assumption.
Defined.

(** C7, as the specification words it, fails: with an audio file
    attached and no key configured the status is 400, which is not a
    server error. *)
Lemma transcription_unconfigured_is_client_error :
  ~ transcription_statuses_as_specified.
Proof.
  intros claim.
  destruct (claim healthy_world [("audio", sample_audio)] init_state _ _
              eq_refl) as [_ H].
  specialize (H sample_audio eq_refl (or_introl eq_refl)).
  discriminate H.
Qed.

(** C8, at an upload without an [audio] field: the status is 400 and
    the body has the error message, but neither a [transcript] nor a
    [status] entry, which the other two error answers of the route
    carry. *)
Theorem transcription_no_audio_body (w : World) (s : State) :
  exists response,
    transcribe_with_assemblyai w [("file", sample_audio)] s = (Ok response, s) /\
    http_status response = 400 /\
    field "error" response = Some (JStr "No audio file provided") /\
    field "transcript" response = None /\
    field "status" response = None.
Proof.
  rewrite (@transcribe_no_audio w [("file", sample_audio)] s eq_refl).
  eexists. split; [reflexivity |]. repeat split.
Qed.

(** ** The deadline of the chat audio path *)

(** Once the [with] block of the executor is left, the future is done:
    [future.result(timeout=10)] returns what [generate_audio] returned
    and the [except] branch that answers [audio_error] is not taken. *)
Lemma chat_endpoint_never_audio_error w request_json s :
  exists response,
    result_of (chat_endpoint w request_json s) = Ok response /\
    field "status" response <> Some (JStr "audio_error").
Proof.
  unfold chat_endpoint, limit_message.
  destruct (dict_get "message" request_json) as [| m].
  { eexists; split; [reflexivity | discriminate]. }
  destruct (Nat.ltb 500 (String.length m));
    unfold try_except, with_executor_submit, executor_submit,
      executor_shutdown_wait, chat_send_message, ret, bind;
    cbv beta iota;
    (destruct (gemini w _ (List.length (sent s))) as [d [t | e]];
     [| eexists; split; [reflexivity | discriminate]]);
    match goal with
    | |- context [generate_audio w t ?s1] =>
        destruct (generate_audio_returns w t s1) as (r & s2 & E & _);
        rewrite E
    end;
    unfold future_result; cbn [done_at outcome clock set_clock];
    match goal with
    | |- context [Nat.leb ?a ?b] =>
        assert (L : Nat.leb a b = true) by (apply Nat.leb_le; lia);
        rewrite L
    end;
    destruct r as [[| b data] |];
    eexists; (split; [reflexivity | discriminate]).
Qed.

(** C3, at a free provider that needs 30 seconds.  The handler is
    blocked for the 30 seconds, not for 10: leaving the [with] block
    waits for the worker.  The answer then has the status [success] and
    the audio, not [audio_error].  No input makes [chat_endpoint]
    answer [audio_error].  A future that is still pending, awaited for
    10 seconds, does time out after 10 seconds. *)
Theorem chat_deadline_not_enforced :
  let r := chat_endpoint slow_world [("message", JStr "Hello")] init_state in
  clock (state_of r) = 30 /\
  result_of r
  = Ok (jsonify [("response", JStr "You said: Hello");
                 ("audio", JStr (b64encode sample_audio));
                 ("status", JStr "success")]) /\
  (forall w request_json s,
      exists response,
        result_of (chat_endpoint w request_json s) = Ok response /\
        field "status" response <> Some (JStr "audio_error")) /\
  future_result (mkFuture 30 (Ok (Some sample_audio))) 10 init_state
  = (Raise (Exn "TimeoutError" ""), set_clock 10 init_state).
Proof.
  cbv zeta. split; [reflexivity |]. split; [reflexivity |].
  split; [apply chat_endpoint_never_audio_error | reflexivity].
Qed.

(** * Further properties of the routes *)

(** ** [chat_endpoint], case by case *)

Lemma limit_message_str m : limit_message (JStr m) = ret (limit_text m).
Proof.
  unfold limit_message, limit_text.
  destruct (Nat.ltb 500 (String.length m)); reflexivity.
Qed.

Lemma chat_endpoint_failed w request_json m s e :
  dict_get "message" request_json = JStr m ->
  snd (gemini w (limit_text m) (List.length (sent s))) = Raise e ->
  chat_endpoint w request_json s
  = (Ok api_error_response,
     set_stdout
       (stdout s ++ ["Error in chat endpoint: " ++ str_of_exn e])
       (after_send w (limit_text m) s)).
Proof.
  intros Hm He. unfold chat_endpoint. cbv zeta. rewrite Hm, limit_message_str.
  unfold try_except, bind, ret, chat_send_message, after_send.
  destruct (gemini w (limit_text m) (List.length (sent s))) as [d out].
  cbn [snd fst] in *. subst out. reflexivity.
Qed.

Lemma chat_endpoint_replied w request_json m s t :
  dict_get "message" request_json = JStr m ->
  snd (gemini w (limit_text m) (List.length (sent s))) = Ok t ->
  exists audio_data s2,
    generate_audio w t (after_send w (limit_text m) s) = (Ok audio_data, s2) /\
    chat_endpoint w request_json s
    = (Ok (chat_response t audio_data),
       set_clock (Nat.max (clock (after_send w (limit_text m) s)) (clock s2)) s2).
Proof.
  intros Hm Ht.
  destruct (generate_audio_returns w t (after_send w (limit_text m) s))
    as (r & s2 & E & _).
  exists r, s2. split; [exact E |].
  unfold chat_endpoint. cbv zeta. rewrite Hm, limit_message_str.
  unfold try_except, with_executor_submit, executor_submit,
    executor_shutdown_wait, chat_send_message, ret, bind.
  unfold after_send in *.
  destruct (gemini w (limit_text m) (List.length (sent s))) as [d out].
  cbn [snd fst] in *. subst out. cbv beta iota. rewrite E.
  unfold future_result. cbn [done_at outcome clock set_clock].
  set (c1 := clock s + d). set (c2 := clock s2).
  assert (L : Nat.leb c2 (Nat.max c1 c2 + 10) = true)
    by (apply Nat.leb_le; lia).
  rewrite L.
  assert (Hmax : Nat.max (Nat.max c1 c2) c2 = Nat.max c1 c2) by lia.
  rewrite Hmax. unfold chat_response.
  destruct r as [[| b data] |]; reflexivity.
Qed.

(** X1.  When the conversational backend raises on the forwarded
    message, [chat_endpoint] answers the fixed apology with a null
    audio and the status [api_error], and it has called neither speech
    provider nor touched the cache. *)
Theorem chat_backend_failure (w : World) (request_json : dict json)
  (m : string) (s : State) (e : exn) :
  dict_get "message" request_json = JStr m ->
  snd (gemini w (limit_text m) (List.length (sent s))) = Raise e ->
  result_of (chat_endpoint w request_json s) = Ok api_error_response /\
  free_calls (state_of (chat_endpoint w request_json s)) = free_calls s /\
  paid_calls (state_of (chat_endpoint w request_json s)) = paid_calls s /\
  cache (state_of (chat_endpoint w request_json s)) = cache s.
Proof.
  intros Hm He. rewrite (chat_endpoint_failed w request_json s Hm He).
  repeat split.
Qed.

Lemma chat_backend_failure_witness :
  result_of (chat_endpoint stt_world [("message", JStr "Hello")] init_state)
  = Ok api_error_response.
Proof.
  apply (@chat_backend_failure stt_world [("message", JStr "Hello")] "Hello"
           init_state (Exn "ResourceExhausted" "quota") eq_refl eq_refl).
Defined.

(** X2.  When the conversational backend replies [t] to the forwarded
    message, the answer of [chat_endpoint] carries [t] as its text, and
    its status follows what [generate_audio] returned for [t]:
    [success] with the base64 of the bytes when they are not empty,
    [no_audio] with a null audio otherwise. *)
Theorem chat_reply_statuses (w : World) (request_json : dict json)
  (m : string) (s : State) (t : string) :
  dict_get "message" request_json = JStr m ->
  snd (gemini w (limit_text m) (List.length (sent s))) = Ok t ->
  exists audio_data s2 response,
    generate_audio w t (after_send w (limit_text m) s) = (Ok audio_data, s2) /\
    result_of (chat_endpoint w request_json s) = Ok response /\
    http_status response = 200 /\
    field "response" response = Some (JStr t) /\
    (forall data, audio_data = Some data -> data <> [] ->
       field "status" response = Some (JStr "success") /\
       field "audio" response = Some (JStr (b64encode data))) /\
    (truthy audio_data = false ->
       field "status" response = Some (JStr "no_audio") /\
       field "audio" response = Some JNull).
Proof.
  intros Hm Ht.
  destruct (chat_endpoint_replied w request_json s Hm Ht)
    as (audio_data & s2 & Hgen & Hchat).
  exists audio_data, s2, (chat_response t audio_data).
  rewrite Hchat. split; [exact Hgen |]. split; [reflexivity |].
  destruct audio_data as [[| b0 rest] |]; cbn.
  - split; [reflexivity |]. split; [reflexivity |]. split.
    + intros d [= <-] Hne. congruence.
    + intros _. split; reflexivity.
  - split; [reflexivity |]. split; [reflexivity |]. split.
    + intros d [= <-] _. split; reflexivity.
    + discriminate.
  - split; [reflexivity |]. split; [reflexivity |]. split.
    + intros d Hd. discriminate Hd.
    + intros _. split; reflexivity.
Qed.

Lemma chat_reply_statuses_witness :
  exists response,
    result_of (chat_endpoint healthy_world [("message", JStr "Hello")]
                 init_state) = Ok response /\
    field "response" response = Some (JStr "You said: Hello").
Proof.
  destruct (@chat_reply_statuses healthy_world [("message", JStr "Hello")]
              "Hello" init_state "You said: Hello" eq_refl eq_refl)
    as (audio_data & s2 & response & _ & Hr & _ & Ht & _).
  exists response. split; assumption.
Defined.

(** ** [generate_audio], path by path *)

Lemma generate_free_tts_free_calls w text s :
  free_calls (state_of (generate_free_tts w text s)) = S (free_calls s).
Proof.
  unfold generate_free_tts, try_except, bind, requests_get, print, ret, state_of.
  destruct (streamelements w text (free_calls s)) as [d [response | e]]; cbn.
  - destruct (Nat.eqb (status_code response) 200); reflexivity.
  - reflexivity.
Qed.

Lemma cached_text_to_speech_calls w text s :
  free_calls (state_of (cached_text_to_speech w text s)) = free_calls s /\
  paid_calls s <= paid_calls (state_of (cached_text_to_speech w text s))
  <= S (paid_calls s).
Proof.
  split.
  - apply (@cached_text_to_speech_keeps _ free_calls); reflexivity.
  - destruct (dict_lookup text (cache s)) as [v |] eqn:E.
    + rewrite (cached_text_to_speech_hit w text s E). cbn. lia.
    + destruct (payload_bytes (snd (elevenlabs w text (paid_calls s))))
        as [b |] eqn:P.
      * rewrite (cached_text_to_speech_miss_ok w text s E P). cbn. lia.
      * destruct (cached_text_to_speech_miss_raise w text s E P) as [e ->].
        cbn. lia.
Qed.

Lemma cached_text_to_speech_miss_calls w text s :
  dict_lookup text (cache s) = None ->
  paid_calls (state_of (cached_text_to_speech w text s)) = S (paid_calls s).
Proof.
  intros E.
  destruct (payload_bytes (snd (elevenlabs w text (paid_calls s))))
    as [b |] eqn:P.
  - now rewrite (cached_text_to_speech_miss_ok w text s E P).
  - now destruct (cached_text_to_speech_miss_raise w text s E P) as [e ->].
Qed.

(** The free stage gave bytes: they are the result and the paid path
    is left alone. *)
Lemma generate_audio_free_path w text s :
  truthy (free_result (snd (streamelements w text (free_calls s)))) = true ->
  result_of (generate_audio w text s)
  = Ok (free_result (snd (streamelements w text (free_calls s)))) /\
  paid_calls (state_of (generate_audio w text s)) = paid_calls s /\
  cache (state_of (generate_audio w text s)) = cache s.
Proof.
  intros Hfree.
  destruct (generate_free_tts_state w text s) as [Hp Hc].
  rewrite generate_audio_unfold.
  destruct (generate_free_tts_returns w text s) as [s1 E].
  rewrite E in *. rewrite Hfree. cbn [state_of snd] in *. repeat split; assumption.
Qed.

(** The free stage gave nothing and the text is cached. *)
Lemma generate_audio_hit_path w text s v :
  truthy (free_result (snd (streamelements w text (free_calls s)))) = false ->
  dict_lookup text (cache s) = Some v ->
  result_of (generate_audio w text s)
  = Ok (if bytes_truthy v then Some v else None) /\
  paid_calls (state_of (generate_audio w text s)) = paid_calls s /\
  dict_lookup text (cache (state_of (generate_audio w text s))) <> None.
Proof.
  intros Hfree Hhit.
  destruct (generate_free_tts_state w text s) as [Hp Hc].
  rewrite generate_audio_unfold.
  destruct (generate_free_tts_returns w text s) as [s1 E].
  rewrite E in *. rewrite Hfree. cbn [state_of snd] in Hp, Hc.
  rewrite <- Hc in Hhit.
  rewrite (cached_text_to_speech_hit w text s1 Hhit).
  assert (M : dict_lookup text
                (dict_remove text (cache s1) ++ [(text, v)])%list <> None).
  { pose proof (dict_mem_snoc text v (dict_remove text (cache s1))) as M.
    apply dict_mem_true in M. destruct M as [v' ->]. discriminate. }
  destruct (bytes_truthy v); cbn; repeat split; assumption.
Qed.

(** The free stage gave nothing, the text is not cached and the paid
    provider answers. *)
Lemma generate_audio_paid_path w text s B :
  truthy (free_result (snd (streamelements w text (free_calls s)))) = false ->
  dict_lookup text (cache s) = None ->
  payload_bytes (snd (elevenlabs w text (paid_calls s))) = Some B ->
  result_of (generate_audio w text s)
  = Ok (if bytes_truthy B then Some B else None) /\
  paid_calls (state_of (generate_audio w text s)) = S (paid_calls s) /\
  cache (state_of (generate_audio w text s)) = stored (cache s) text B.
Proof.
  intros Hfree Hmiss HB.
  destruct (generate_free_tts_state w text s) as [Hp Hc].
  rewrite generate_audio_unfold.
  destruct (generate_free_tts_returns w text s) as [s1 E].
  rewrite E in *. rewrite Hfree. cbn [state_of snd] in Hp, Hc.
  rewrite <- Hc in Hmiss. rewrite <- Hp in HB.
  rewrite (cached_text_to_speech_miss_ok w text s1 Hmiss HB).
  destruct (bytes_truthy B); cbn; rewrite Hp, Hc; repeat split.
Qed.

(** X3.  A chat whose reply the free provider cannot voice, while the
    reply is not cached and the paid provider answers non-empty bytes
    [B], is answered [success] with the base64 of [B].  The reply is in
    the cache afterwards under [B], and an audio fetch of the reply
    text right after returns [B] without another call of the paid
    provider. *)
Theorem chat_paid_fallback_then_fetch (w : World) (request_json : dict json)
  (m : string) (s : State) (t : string) (B : bytes) :
  dict_get "message" request_json = JStr m ->
  snd (gemini w (limit_text m) (List.length (sent s))) = Ok t ->
  truthy (free_result (snd (streamelements w t (free_calls s)))) = false ->
  dict_lookup t (cache s) = None ->
  payload_bytes (snd (elevenlabs w t (paid_calls s))) = Some B ->
  B <> [] ->
  let s' := state_of (chat_endpoint w request_json s) in
  result_of (chat_endpoint w request_json s)
  = Ok (jsonify [("response", JStr t);
                 ("audio", JStr (b64encode B));
                 ("status", JStr "success")]) /\
  dict_lookup t (cache s') = Some B /\
  paid_calls s' = S (paid_calls s) /\
  result_of (text_to_speech w t s')
  = Ok (mkResponse 200 (RawBody "audio/mpeg" B)) /\
  paid_calls (state_of (text_to_speech w t s')) = paid_calls s'.
Proof.
  intros Hm Ht Hfree Hmiss HB Hne s'.
  destruct (chat_endpoint_replied w request_json s Hm Ht)
    as (audio_data & s2 & Hgen & Hchat).
  destruct (@generate_audio_paid_path w t (after_send w (limit_text m) s) B
              Hfree Hmiss HB) as (Hr & Hp & Hc).
  rewrite Hgen in Hr, Hp, Hc. cbn [result_of state_of fst snd] in Hr, Hp, Hc.
  apply bytes_truthy_true in Hne as Htr. rewrite Htr in Hr.
  injection Hr as ->.
  assert (Hcache : dict_lookup t (cache s') = Some B).
  { subst s'. rewrite Hchat. cbn [state_of snd cache set_clock].
    rewrite Hc. now apply dict_lookup_stored. }
  assert (Hpaid : paid_calls s' = S (paid_calls s)).
  { subst s'. rewrite Hchat. cbn [state_of snd paid_calls set_clock].
    exact Hp. }
  split.
  { rewrite Hchat. destruct B; [congruence | reflexivity]. }
  split; [exact Hcache |]. split; [exact Hpaid |].
  unfold text_to_speech, try_except, bind.
  rewrite (cached_text_to_speech_hit w t s' Hcache). split; reflexivity.
Qed.

Lemma chat_paid_fallback_then_fetch_witness :
  result_of
    (text_to_speech free_down_world "You said: Hello"
       (state_of (chat_endpoint free_down_world [("message", JStr "Hello")]
                    init_state)))
  = Ok (mkResponse 200 (RawBody "audio/mpeg" sample_paid_audio)).
Proof.
  apply (@chat_paid_fallback_then_fetch free_down_world
           [("message", JStr "Hello")] "Hello" init_state "You said: Hello"
           sample_paid_audio eq_refl eq_refl eq_refl eq_refl eq_refl).
  discriminate.
Defined.

(** X4.  One call of [generate_audio] issues exactly one request to the
    free provider and at most one to the paid provider; when the free
    provider answers 200 with bytes that are not empty, the paid
    provider is not called and the cache is left as it was. *)
Theorem generate_audio_call_bounds (w : World) (text : string) (s : State) :
  free_calls (state_of (generate_audio w text s)) = S (free_calls s) /\
  paid_calls s <= paid_calls (state_of (generate_audio w text s))
  <= S (paid_calls s) /\
  (truthy (free_result (snd (streamelements w text (free_calls s)))) = true ->
   paid_calls (state_of (generate_audio w text s)) = paid_calls s /\
   cache (state_of (generate_audio w text s)) = cache s).
Proof.
  split; [| split].
  - pose proof (generate_free_tts_free_calls w text s) as Hf.
    rewrite generate_audio_unfold.
    destruct (generate_free_tts_returns w text s) as [s1 E].
    rewrite E in *. cbn [state_of snd] in Hf.
    destruct (truthy _); [exact Hf |].
    destruct (cached_text_to_speech_calls w text s1) as [Hfc _].
    destruct (cached_text_to_speech w text s1) as [[data | e] s2];
      cbn [state_of snd] in *; [destruct (bytes_truthy data) |]; cbn; congruence.
  - destruct (generate_free_tts_state w text s) as [Hp _].
    rewrite generate_audio_unfold.
    destruct (generate_free_tts_returns w text s) as [s1 E].
    rewrite E in *. cbn [state_of snd] in Hp.
    destruct (truthy _); [cbn; lia |].
    destruct (cached_text_to_speech_calls w text s1) as [_ Hpc].
    destruct (cached_text_to_speech w text s1) as [[data | e] s2];
      cbn [state_of snd] in *; [destruct (bytes_truthy data) |]; cbn; lia.
  - intros Hfree. apply (generate_audio_free_path w text s Hfree).
Qed.

Lemma generate_audio_call_bounds_witness :
  paid_calls (state_of (generate_audio healthy_world "Hello" init_state)) = 0
  /\ free_calls (state_of (generate_audio healthy_world "Hello" init_state)) = 1.
Proof.
  destruct (generate_audio_call_bounds healthy_world "Hello" init_state)
    as (Hf & _ & H).
  split; [apply H; reflexivity | exact Hf].
Defined.

(** ** What is memoized and what is not *)

(** X5.  An empty answer of the paid provider is memoized like any
    other.  When the free provider gives nothing, the text is not
    cached and the paid provider answers with no bytes,
    [generate_audio] returns [None] and the empty bytes are in the
    cache under the text; a later [generate_audio] on that text, the
    free provider still giving nothing, returns [None] again without
    asking the paid provider, and an audio fetch of the text answers
    200 with an empty body. *)
Theorem empty_paid_answer_cached (w : World) (text : string) (s : State) :
  truthy (free_result (snd (streamelements w text (free_calls s)))) = false ->
  dict_lookup text (cache s) = None ->
  payload_bytes (snd (elevenlabs w text (paid_calls s))) = Some [] ->
  let s' := state_of (generate_audio w text s) in
  result_of (generate_audio w text s) = Ok None /\
  dict_lookup text (cache s') = Some [] /\
  (truthy (free_result (snd (streamelements w text (free_calls s')))) = false ->
   result_of (generate_audio w text s') = Ok None /\
   paid_calls (state_of (generate_audio w text s')) = paid_calls s') /\
  result_of (text_to_speech w text s')
  = Ok (mkResponse 200 (RawBody "audio/mpeg" [])) /\
  paid_calls (state_of (text_to_speech w text s')) = paid_calls s'.
Proof.
  intros Hfree Hmiss Hempty s'.
  destruct (generate_audio_paid_path w text s Hfree Hmiss Hempty)
    as (Hr & Hp & Hc).
  assert (Hcache : dict_lookup text (cache s') = Some []).
  { subst s'. rewrite Hc. now apply dict_lookup_stored. }
  split; [exact Hr |]. split; [exact Hcache |]. split.
  - intros Hfree'.
    destruct (generate_audio_hit_path w text s' Hfree' Hcache) as (Hr' & Hp' & _).
    split; assumption.
  - unfold text_to_speech, try_except, bind.
    rewrite (cached_text_to_speech_hit w text s' Hcache). split; reflexivity.
Qed.

Lemma empty_paid_answer_cached_witness :
  result_of (generate_audio empty_paid_world "Hello" init_state) = Ok None
  /\ paid_calls
       (state_of
          (generate_audio empty_paid_world "Hello"
             (state_of (generate_audio empty_paid_world "Hello" init_state))))
     = 1.
Proof.
  destruct (@empty_paid_answer_cached empty_paid_world "Hello" init_state
              eq_refl eq_refl eq_refl) as (Hr & _ & Hagain & _).
  split; [exact Hr |].
  destruct (Hagain eq_refl) as [_ Hp]. rewrite Hp. reflexivity.
Defined.

(** X6.  A call of [cached_text_to_speech] that raises stores nothing:
    on a text that is not cached and a paid provider that fails, the
    call raises, the cache is as before, and the next call on the same
    text asks the provider again. *)
Theorem paid_failure_not_cached (w : World) (text : string) (s : State) :
  dict_lookup text (cache s) = None ->
  payload_bytes (snd (elevenlabs w text (paid_calls s))) = None ->
  let s' := state_of (cached_text_to_speech w text s) in
  (exists e, result_of (cached_text_to_speech w text s) = Raise e) /\
  cache s' = cache s /\
  paid_calls s' = S (paid_calls s) /\
  paid_calls (state_of (cached_text_to_speech w text s')) = S (S (paid_calls s)).
Proof.
  intros Hmiss Hfail s'.
  destruct (cached_text_to_speech_miss_raise w text s Hmiss Hfail) as [e E].
  assert (Hc : cache s' = cache s) by (subst s'; now rewrite E).
  assert (Hp : paid_calls s' = S (paid_calls s)) by (subst s'; now rewrite E).
  split; [exists e; now rewrite E |]. split; [exact Hc |]. split; [exact Hp |].
  rewrite cached_text_to_speech_miss_calls; [now rewrite Hp | now rewrite Hc].
Qed.

Lemma paid_failure_not_cached_witness :
  paid_calls
    (state_of
       (cached_text_to_speech all_down_world "Hello"
          (state_of (cached_text_to_speech all_down_world "Hello" init_state))))
  = 2.
Proof.
  apply (@paid_failure_not_cached all_down_world "Hello" init_state
           eq_refl eq_refl).
Defined.

(** ** The greeting *)

Lemma introduction_text_state w s : state_of (introduction_text w s) = s.
Proof.
  unfold introduction_text, getitem, bind, ret, raise, state_of.
  destruct (nth_error (projects (user_data w)) 0); [| reflexivity].
  destruct (nth_error (projects (user_data w)) 1); [| reflexivity].
  destruct (nth_error (achievements (user_data w)) 0); [| reflexivity].
  destruct (nth_error (achievements (user_data w)) 1); reflexivity.
Qed.

Lemma introduction_text_short w s :
  List.length (projects (user_data w)) < 2 \/
  List.length (achievements (user_data w)) < 2 ->
  introduction_text w s
  = (Raise (Exn "IndexError" "list index out of range"), s).
Proof.
  intros H. unfold introduction_text, getitem, bind, ret, raise.
  destruct (projects (user_data w)) as [| p0 [| p1 ps]];
    try reflexivity; cbn [nth_error].
  destruct (achievements (user_data w)) as [| a0 [| a1 rest]];
    try reflexivity.
  simpl in H. lia.
Qed.

(** The greeting runs the same two stages as [generate_audio]. *)
Lemma generate_introduction_ok w s t :
  introduction_text w s = (Ok t, s) ->
  exists audio_data s2 s3,
    generate_audio w t s = (Ok audio_data, s2) /\
    generate_introduction w s
    = (Ok [("text", JStr t); ("audio", audio_entry audio_data)], s3) /\
    cache s3 = cache s2 /\ free_calls s3 = free_calls s2 /\
    paid_calls s3 = paid_calls s2 /\ clock s3 = clock s2 /\
    sent s3 = sent s2 /\ stt_calls s3 = stt_calls s2 /\
    temp_file s3 = temp_file s2.
Proof.
  intros Ht. unfold generate_introduction, try_except, bind. rewrite Ht.
  rewrite generate_audio_unfold.
  destruct (generate_free_tts_returns w t s) as [s1 ->].
  destruct (free_result _) as [[| b data] |]; cbn [ret truthy bytes_truthy].
  2: { do 3 eexists. split; [reflexivity |]. split; [reflexivity |].
       repeat split. }
  all: destruct (cached_text_to_speech w t s1) as [[[| b data] | e] s2];
    cbn [ret bytes_truthy print];
    do 3 eexists; (split; [reflexivity |]); (split; [reflexivity |]);
    repeat split.
Qed.

(** X7.  The greeting and [generate_audio] agree.  When the resume has
    the entries the introduction names, the greeting carries the
    introduction as its text, and its audio is the base64 of what
    [generate_audio] returns for that text in the same state, or null
    when that is nothing; both leave the same cache and the same
    numbers of provider calls. *)
Theorem greeting_agrees_with_generate_audio (w : World) (s : State)
  (t : string) :
  introduction_text w s = (Ok t, s) ->
  exists audio_data,
    result_of (generate_audio w t s) = Ok audio_data /\
    result_of (generate_introduction w s)
    = Ok [("text", JStr t); ("audio", audio_entry audio_data)] /\
    cache (state_of (generate_introduction w s))
    = cache (state_of (generate_audio w t s)) /\
    free_calls (state_of (generate_introduction w s))
    = free_calls (state_of (generate_audio w t s)) /\
    paid_calls (state_of (generate_introduction w s))
    = paid_calls (state_of (generate_audio w t s)).
Proof.
  intros Ht.
  destruct (@generate_introduction_ok w s t Ht)
    as (audio_data & s2 & s3 & Hgen & Hintro & Hc & Hf & Hp & _).
  exists audio_data. rewrite Hgen, Hintro. repeat split; assumption.
Qed.

Lemma greeting_agrees_with_generate_audio_witness :
  exists t,
    result_of (generate_introduction free_down_world init_state)
    = Ok [("text", JStr t); ("audio", JStr (b64encode sample_paid_audio))].
Proof.
  eexists.
  destruct (@greeting_agrees_with_generate_audio free_down_world init_state _
              eq_refl) as (audio_data & Hgen & Hintro & _).
  injection Hgen as <-. exact Hintro.
Defined.

(** X8.  When the resume lists fewer than two projects or fewer than
    two achievements, indexing raises inside the outer [try]: the
    greeting is the fixed fallback sentence with a null audio, and no
    provider is called. *)
Theorem greeting_fallback_on_short_resume (w : World) (s : State) :
  List.length (projects (user_data w)) < 2 \/
  List.length (achievements (user_data w)) < 2 ->
  generate_introduction w s
  = (Ok [("text", JStr fallback_introduction); ("audio", JNull)],
     set_stdout
       (stdout s ++ ["Error generating introduction: list index out of range"])
       s).
Proof.
  intros H. unfold generate_introduction, try_except, bind.
  now rewrite (introduction_text_short w s H).
Qed.

Lemma greeting_fallback_on_short_resume_witness :
  result_of (generate_introduction short_world init_state)
  = Ok [("text", JStr fallback_introduction); ("audio", JNull)]
  /\ free_calls (state_of (generate_introduction short_world init_state)) = 0.
Proof.
  rewrite (@greeting_fallback_on_short_resume short_world init_state).
  - split; reflexivity.
  - left. simpl. lia.
Defined.

(** ** Whole runs of the server *)

Ltac keeps_any :=
  first
    [ apply print_keeps | apply generate_audio_keeps
    | apply cached_text_to_speech_keeps | apply generate_free_tts_keeps
    | apply chat_send_message_keeps | apply executor_shutdown_wait_keeps
    | apply future_result_keeps | apply transcriber_transcribe_keeps
    | apply file_save_keeps | apply remove_temp_file_keeps ];
  intros; reflexivity.

Ltac keeps_frame f :=
  frame_structure (keeps f) (keeps_refl f) (@keeps_trans _ f);
  try solve [keeps_any];
  try (apply (framed_submit (@keeps_trans _ f));
       [intros; reflexivity | keeps_any]).

Lemma serve_cons w r requests s :
  serve w (r :: requests) s = serve w requests (handle w r s).
Proof. reflexivity. Qed.

Lemma chat_endpoint_null w request_json s :
  dict_get "message" request_json = JNull ->
  state_of (chat_endpoint w request_json s)
  = set_stdout
      (stdout s
       ++ ["Error in chat endpoint: object of type 'NoneType' has no len()"])
      s.
Proof. intros H. unfold chat_endpoint. rewrite H. reflexivity. Qed.

Lemma handle_free_healthy w r s :
  free_healthy w ->
  is_get_audio r = false ->
  paid_calls (handle w r s) = paid_calls s /\ cache (handle w r s) = cache s.
Proof.
  intros Hw Hr. destruct r as [| request_json | text | | request_files];
    try discriminate; cbn [handle].
  - pose proof (introduction_text_state w s) as Hs.
    destruct (introduction_text w s) as [[t | e] s0] eqn:E;
      cbn [state_of snd] in Hs; subst s0.
    + destruct (@generate_introduction_ok w s t E)
        as (audio_data & s2 & s3 & Hgen & Hintro & Hc & _ & Hp & _).
      destruct (generate_audio_free_path w t s (Hw t (free_calls s)))
        as (_ & Hp' & Hc').
      rewrite Hgen in Hp', Hc'. rewrite Hintro. cbn [state_of snd] in *.
      split; congruence.
    + unfold generate_introduction, try_except, bind. rewrite E.
      split; reflexivity.
  - destruct (dict_get "message" request_json) as [| m] eqn:Hm.
    + rewrite (chat_endpoint_null w request_json s Hm). split; reflexivity.
    + destruct (snd (gemini w (limit_text m) (List.length (sent s))))
        as [t | e] eqn:Hg.
      * destruct (@chat_endpoint_replied w request_json m s t Hm Hg)
          as (audio_data & s2 & Hgen & Hchat).
        destruct (generate_audio_free_path w t (after_send w (limit_text m) s)
                    (Hw t _)) as (_ & Hp' & Hc').
        rewrite Hgen in Hp', Hc'. rewrite Hchat. cbn [state_of snd] in *.
        split; assumption.
      * rewrite (@chat_endpoint_failed w request_json m s e Hm Hg).
        split; reflexivity.
  - split; reflexivity.
  - split.
    + assert (K : framed (keeps paid_calls)
                    (transcribe_with_assemblyai w request_files))
        by (unfold transcribe_with_assemblyai; keeps_frame paid_calls).
      apply K.
    + assert (K : framed (keeps cache)
                    (transcribe_with_assemblyai w request_files))
        by (unfold transcribe_with_assemblyai; keeps_frame cache).
      apply K.
Qed.

(** X9.  With a free provider that answers every call with audio, the
    greeting, chat, recording and transcription routes never call the
    paid provider and never write the cache: over any list of such
    requests the number of paid calls and the cache stay as they
    were.  Only the audio fetch route spends paid calls then. *)
Theorem free_provider_spares_paid_calls (w : World)
  (requests : list Request) (s : State) :
  free_healthy w ->
  forallb (fun r => negb (is_get_audio r)) requests = true ->
  paid_calls (serve w requests s) = paid_calls s /\
  cache (serve w requests s) = cache s.
Proof.
  intros Hw. revert s.
  induction requests as [| r requests IH]; intros s Hall.
  - split; reflexivity.
  - cbn [forallb] in Hall. apply andb_true_iff in Hall.
    destruct Hall as [Hr Hall]. apply negb_true_iff in Hr.
    rewrite serve_cons.
    destruct (IH (handle w r s) Hall) as [Hp Hc].
    destruct (@handle_free_healthy w r s Hw Hr) as [Hp' Hc'].
    split; congruence.
Qed.

Lemma free_provider_spares_paid_calls_witness :
  paid_calls
    (serve healthy_world
       [GetIndex; PostChat [("message", JStr "Hello")];
        PostTranscribe [("audio", sample_audio)]; PostChat []]
       init_state)
  = 0.
Proof.
  apply (@free_provider_spares_paid_calls healthy_world
           [GetIndex; PostChat [("message", JStr "Hello")];
            PostTranscribe [("audio", sample_audio)]; PostChat []]
           init_state).
  - intros text n. reflexivity.
  - reflexivity.
Defined.

(** ** Where cached bytes come from *)

Lemma cache_step_refl P s : cache_step P s s.
Proof. intro H. exact H. Qed.

Lemma cache_step_trans P a b c :
  cache_step P a b -> cache_step P b c -> cache_step P a c.
Proof. unfold cache_step. auto. Qed.

Lemma framed_keeps_cache_step P A (m : M A) :
  framed (keeps cache) m -> framed (cache_step P) m.
Proof.
  intros H s HP. specialize (H s). unfold keeps in H. now rewrite H.
Qed.

Section CacheInvariant.
Variable w : World.
Variable P : dict bytes -> Prop.
Hypothesis cached_step :
  forall text, framed (cache_step P) (cached_text_to_speech w text).

Ltac step_frame :=
  frame_structure (cache_step P) (cache_step_refl P) (@cache_step_trans P);
  try solve [ apply cached_step
            | apply framed_keeps_cache_step; keeps_any ].

Lemma generate_audio_cache_step text :
  framed (cache_step P) (generate_audio w text).
Proof. unfold generate_audio. step_frame. Qed.

Lemma handle_cache_step r s : P (cache s) -> P (cache (handle w r s)).
Proof.
  destruct r as [| request_json | text | | request_files]; cbn [handle].
  - assert (K : framed (cache_step P) (generate_introduction w))
      by (unfold generate_introduction, introduction_text, getitem; step_frame).
    apply K.
  - assert (K : framed (cache_step P) (chat_endpoint w request_json)).
    { unfold chat_endpoint, limit_message, with_executor_submit. step_frame.
      apply (framed_submit (@cache_step_trans P));
        [intros s0 t H; exact H | apply generate_audio_cache_step]. }
    apply K.
  - assert (K : framed (cache_step P) (text_to_speech w text))
      by (unfold text_to_speech; step_frame).
    apply K.
  - trivial.
  - assert (K : framed (cache_step P)
                  (transcribe_with_assemblyai w request_files))
      by (unfold transcribe_with_assemblyai; step_frame).
    apply K.
Qed.

Lemma serve_cache_step requests :
  forall s, P (cache s) -> P (cache (serve w requests s)).
Proof.
  induction requests as [| r requests IH]; intros s H; [exact H |].
  rewrite serve_cons. apply IH, handle_cache_step, H.
Qed.
End CacheInvariant.

Lemma dict_lookup_In V k v (d : dict V) :
  dict_lookup k d = Some v -> In (k, v) d.
Proof.
  induction d as [| [k' v'] d IH]; simpl; [discriminate |].
  destruct (String.eqb_spec k k') as [-> | Hne].
  - intros [= ->]. now left.
  - intros H. right. now apply IH.
Qed.

Lemma Forall_dict_remove V (Q : string * V -> Prop) k (d : dict V) :
  Forall Q d -> Forall Q (dict_remove k d).
Proof.
  induction 1 as [| [k' v'] d Hq Hd IH]; simpl; [constructor |].
  destruct (String.eqb k k'); [exact Hd | constructor; assumption].
Qed.

Lemma Forall_tl A (Q : A -> Prop) (l : list A) : Forall Q l -> Forall Q (tl l).
Proof. destruct 1; simpl; [constructor | assumption]. Qed.

Lemma cached_text_to_speech_provenance w text :
  framed (cache_step (Forall (from_paid_provider w)))
    (cached_text_to_speech w text).
Proof.
  intros s H.
  destruct (dict_lookup text (cache s)) as [v |] eqn:E.
  - rewrite (cached_text_to_speech_hit w text s E).
    cbn [state_of snd cache set_cache]. apply Forall_app. split.
    + now apply Forall_dict_remove.
    + constructor; [| constructor].
      apply dict_lookup_In in E. rewrite Forall_forall in H. now apply H.
  - destruct (payload_bytes (snd (elevenlabs w text (paid_calls s))))
      as [b |] eqn:B.
    + rewrite (cached_text_to_speech_miss_ok w text s E B).
      cbn [state_of snd cache set_cache]. unfold stored.
      assert (New : Forall (from_paid_provider w) [(text, b)]).
      { constructor; [| constructor]. exists (paid_calls s). exact B. }
      destruct (Nat.leb maxsize (List.length (cache s)));
        apply Forall_app; split; try exact New;
        [now apply Forall_tl | exact H].
    + destruct (cached_text_to_speech_miss_raise w text s E B) as [e ->].
      exact H.
Qed.

(** X10.  Only answers of the paid provider are cached.  In every state
    the server reaches from its start, each cache entry holds, under
    its text, bytes that the paid provider returned for that very
    text; nothing the free provider returned is ever stored. *)
Theorem cache_holds_paid_answers_only (w : World) (requests : list Request) :
  Forall (from_paid_provider w) (cache (serve w requests init_state)).
Proof.
  apply (@serve_cache_step w (Forall (from_paid_provider w))).
  - apply cached_text_to_speech_provenance.
  - constructor.
Qed.

(** ** What the other routes leave alone *)



(** ** The transcription route, path by path *)

Lemma transcribe_success w request_files s audio answer :
  dict_lookup "audio" request_files = Some audio ->
  save_fault w = None ->
  key_unconfigured (ASSEMBLY_AI_API_KEY w) = false ->
  snd (assemblyai w audio (stt_calls s)) = Ok answer ->
  transcribe_with_assemblyai w request_files s
  = (Ok (jsonify [("transcript", JStr (transcript_text answer));
                  ("status", JStr "success")]),
     set_temp_file None
       (set_stdout
          (stdout s ++ ["Using AssemblyAI for transcription";
                        "AssemblyAI transcription result: "
                        ++ transcript_text answer])
          (set_clock (clock s + fst (assemblyai w audio (stt_calls s)))
             (set_stt_calls (S (stt_calls s)) s)))).
Proof.
  intros Hfile Hsave Hkey Hok.
  unfold transcribe_with_assemblyai, file_save, try_except, bind,
    transcriber_transcribe, remove_temp_file, print, ret.
  rewrite Hfile, Hsave, Hkey.
  cbn [temp_file set_temp_file set_stdout stt_calls].
  destruct (assemblyai w audio (stt_calls s)) as [d r].
  cbn [snd fst] in *. subst r. cbv beta iota.
  cbn [temp_file set_temp_file set_stdout set_clock set_stt_calls stdout
       cache free_calls paid_calls stt_calls sent clock].
  unfold transcript_text, get_or. rewrite <- app_assoc.
  destruct answer; reflexivity.
Qed.

(** X12.  With a file attached, a configured key and a recogniser that
    answers, the route answers 200 with the status [success]; the
    transcript is the recognised text, or the empty string when the
    recogniser reports no text.  The recogniser was called once and the
    temporary recording is gone. *)
Theorem transcription_success (w : World) (request_files : dict bytes)
  (s : State) (audio : bytes) (answer : option string) :
  dict_lookup "audio" request_files = Some audio ->
  save_fault w = None ->
  key_unconfigured (ASSEMBLY_AI_API_KEY w) = false ->
  snd (assemblyai w audio (stt_calls s)) = Ok answer ->
  let r := transcribe_with_assemblyai w request_files s in
  result_of r
  = Ok (mkResponse 200
          (JsonBody [("transcript", JStr (transcript_text answer));
                     ("status", JStr "success")])) /\
  (answer = None -> transcript_text answer = "") /\
  stt_calls (state_of r) = S (stt_calls s) /\
  temp_file (state_of r) = None.
Proof.
  intros Hfile Hsave Hkey Hok r. subst r.
  rewrite (@transcribe_success w request_files s audio answer
             Hfile Hsave Hkey Hok).
  repeat split. intros ->. reflexivity.
Qed.

Lemma transcription_success_witness :
  result_of (transcribe_with_assemblyai stt_world [("audio", sample_audio)]
               init_state)
  = Ok (mkResponse 200
          (JsonBody [("transcript", JStr "hello there");
                     ("status", JStr "success")])).
Proof.
  apply (@transcription_success stt_world [("audio", sample_audio)] init_state
           sample_audio (Some "hello there") eq_refl eq_refl eq_refl eq_refl).
Defined.

(** X13.  A failure to save the upload is not caught: the call of
    [audio_file.save] stands before the [try], so the exception leaves
    the handler.  Nothing else has happened by then: the recogniser was
    not called and the state is as it was. *)
Theorem transcription_save_fault_escapes (w : World)
  (request_files : dict bytes) (s : State) (audio : bytes) (e : exn) :
  dict_lookup "audio" request_files = Some audio ->
  save_fault w = Some e ->
  transcribe_with_assemblyai w request_files s = (Raise e, s).
Proof.
  intros Hfile Hsave.
  unfold transcribe_with_assemblyai, file_save, bind, raise.
  now rewrite Hfile, Hsave.
Qed.

Lemma transcription_save_fault_escapes_witness :
  transcribe_with_assemblyai readonly_world [("audio", sample_audio)] init_state
  = (Raise (Exn "PermissionError" "temp_recording.wav"), init_state).
Proof.
  apply (@transcription_save_fault_escapes readonly_world
           [("audio", sample_audio)] init_state sample_audio
           (Exn "PermissionError" "temp_recording.wav") eq_refl eq_refl).
Defined.

Lemma transcribe_temp_file w request_files s :
  temp_file s = None \/
  (dict_lookup "audio" request_files <> None /\ save_fault w = None) ->
  temp_file (state_of (transcribe_with_assemblyai w request_files s)) = None.
Proof.
  intros H.
  unfold transcribe_with_assemblyai, file_save, try_except, bind,
    transcriber_transcribe, remove_temp_file, print, ret, raise, state_of.
  destruct (dict_lookup "audio" request_files) as [audio |].
  2: { destruct H as [H | [H _]]; [exact H | congruence]. }
  destruct (save_fault w) as [e |].
  { destruct H as [H | [_ H]]; [exact H | discriminate]. }
  destruct (key_unconfigured (ASSEMBLY_AI_API_KEY w)); [reflexivity |].
  cbn [temp_file set_temp_file set_stdout stt_calls].
  destruct (assemblyai w audio (stt_calls s)) as [d [answer | e]]; reflexivity.
Qed.

Lemma handle_temp_file w r s :
  temp_file s = None -> temp_file (handle w r s) = None.
Proof.
  intros H.
  destruct r as [| request_json | text | | request_files]; cbn [handle].
  - assert (K : framed (keeps temp_file) (generate_introduction w))
      by (unfold generate_introduction, introduction_text, getitem;
          keeps_frame temp_file).
    now rewrite (K s).
  - assert (K : framed (keeps temp_file) (chat_endpoint w request_json))
      by (unfold chat_endpoint, limit_message, with_executor_submit;
          keeps_frame temp_file).
    now rewrite (K s).
  - assert (K : framed (keeps temp_file) (text_to_speech w text))
      by (unfold text_to_speech; keeps_frame temp_file).
    now rewrite (K s).
  - exact H.
  - apply transcribe_temp_file. now left.
Qed.

(** X14.  The temporary recording never outlives its request.  Once the
    upload is saved, every path of the route removes the file before it
    answers, whether the key is missing, the recogniser answers or the
    recogniser raises; and after any list of requests served from the
    start no temporary recording is left. *)
Theorem temp_recording_removed (w : World) :
  (forall request_files s,
      dict_lookup "audio" request_files <> None ->
      save_fault w = None ->
      temp_file (state_of (transcribe_with_assemblyai w request_files s))
      = None) /\
  (forall requests, temp_file (serve w requests init_state) = None).
Proof.
  split.
  - intros request_files s Hfile Hsave. apply transcribe_temp_file. now right.
  - intros requests.
    assert (G : forall s, temp_file s = None ->
                          temp_file (serve w requests s) = None).
    { induction requests as [| r requests IH]; intros s H; [exact H |].
      rewrite serve_cons. apply IH, handle_temp_file, H. }
    apply G. reflexivity.
Qed.

Lemma temp_recording_removed_witness :
  temp_file
    (state_of (transcribe_with_assemblyai stt_failing_world
                 [("audio", sample_audio)] init_state))
  = None.
Proof.
  destruct (temp_recording_removed stt_failing_world) as [H _].
  apply H; [discriminate | reflexivity].
Defined.

Lemma handle_stt_unconfigured w r s :
  key_unconfigured (ASSEMBLY_AI_API_KEY w) = true ->
  stt_calls (handle w r s) = stt_calls s.
Proof.
  intros Hkey.
  destruct r as [| request_json | text | | request_files]; cbn [handle].
  - assert (K : framed (keeps stt_calls) (generate_introduction w))
      by (unfold generate_introduction, introduction_text, getitem;
          keeps_frame stt_calls).
    apply K.
  - assert (K : framed (keeps stt_calls) (chat_endpoint w request_json))
      by (unfold chat_endpoint, limit_message, with_executor_submit;
          keeps_frame stt_calls).
    apply K.
  - assert (K : framed (keeps stt_calls) (text_to_speech w text))
      by (unfold text_to_speech; keeps_frame stt_calls).
    apply K.
  - reflexivity.
  - unfold transcribe_with_assemblyai, file_save, try_except, bind,
      remove_temp_file, print, ret, raise, state_of.
    destruct (dict_lookup "audio" request_files) as [audio |];
      [| reflexivity].
    destruct (save_fault w) as [e |]; [reflexivity |].
    rewrite Hkey. reflexivity.
Qed.

(** X15.  Without a configured key the recogniser is never called: over
    any list of requests its call count stays as it was, whatever is
    uploaded. *)
Theorem unconfigured_recogniser_never_called (w : World)
  (requests : list Request) (s : State) :
  key_unconfigured (ASSEMBLY_AI_API_KEY w) = true ->
  stt_calls (serve w requests s) = stt_calls s.
Proof.
  intros Hkey. revert s.
  induction requests as [| r requests IH]; intros s; [reflexivity |].
  rewrite serve_cons, IH. now apply handle_stt_unconfigured.
Qed.

Lemma unconfigured_recogniser_never_called_witness :
  stt_calls
    (serve healthy_world
       [PostTranscribe [("audio", sample_audio)]; PostTranscribe []] init_state)
  = 0.
Proof.
  apply (@unconfigured_recogniser_never_called healthy_world
           [PostTranscribe [("audio", sample_audio)]; PostTranscribe []]
           init_state eq_refl).
Defined.

(** ** The encoding of the audio *)

Lemma b64encode_length_bounded n :
  forall data,
    List.length data <= n ->
    String.length (b64encode data) = 4 * ((List.length data + 2) / 3).
Proof.
  induction n as [| n IH]; intros data Hlen.
  - destruct data; [reflexivity | simpl in Hlen; lia].
  - destruct data as [| a [| b [| c rest]]]; try reflexivity.
    cbn [b64encode String.length List.length] in *.
    rewrite IH by lia.
    replace (S (S (S (List.length rest))) + 2)
      with (List.length rest + 2 + 1 * 3) by lia.
    rewrite Nat.div_add by lia. lia.
Qed.

(** X16.  The base64 text of [n] bytes of audio has [4 * ceil(n / 3)]
    characters: every group of three bytes, the last one padded, gives
    four characters. *)
Theorem b64encode_length (data : bytes) :
  String.length (b64encode data) = 4 * ((List.length data + 2) / 3).
Proof. apply (b64encode_length_bounded (n := List.length data)). lia. Qed.

(** ** [create_system_prompt] *)

Lemma string_app_assoc (a b c : string) : (a ++ b) ++ c = a ++ (b ++ c).
Proof. induction a as [| x a IH]; simpl; [reflexivity | now rewrite IH]. Qed.

Lemma string_app_nil_r (a : string) : a ++ "" = a.
Proof. induction a as [| x a IH]; simpl; [reflexivity | now rewrite IH]. Qed.

Lemma add_details_flat text details :
  add_details text details
  = text ++ fold_right String.append ""
              (map (fun detail => "  - " ++ detail ++ nl) details).
Proof.
  unfold add_details. revert text.
  induction details as [| d details IH]; intros text; cbn [fold_left map fold_right].
  - now rewrite string_app_nil_r.
  - rewrite IH. now rewrite !string_app_assoc.
Qed.

Lemma experience_step_fst t d d' exp :
  experience_step (t, d) exp = experience_step (t, d') exp.
Proof. reflexivity. Qed.

Lemma experience_step_snd vars exp :
  snd (experience_step vars exp) = get_or (exp_duration exp) "".
Proof.
  unfold experience_step. cbv zeta.
  destruct (str_truthy (get_or (exp_duration exp) "")); reflexivity.
Qed.

Lemma experience_step_text vars exp :
  fst (experience_step vars exp)
  = fst vars ++ (if has_duration exp then experience_block exp else "").
Proof.
  unfold experience_step, has_duration, experience_block. cbv zeta.
  destruct (str_truthy (get_or (exp_duration exp) "")); cbn [fst].
  - rewrite add_details_flat. now rewrite !string_app_assoc.
  - now rewrite string_app_nil_r.
Qed.

Lemma experience_fold_text exps :
  forall vars,
    fst (fold_left experience_step exps vars)
    = fst vars
      ++ fold_right String.append ""
           (map experience_block (filter has_duration exps)).
Proof.
  induction exps as [| exp exps IH]; intros vars; cbn [fold_left filter].
  - cbn. now rewrite string_app_nil_r.
  - rewrite IH, experience_step_text.
    destruct (has_duration exp); cbn [map fold_right].
    + now rewrite string_app_assoc.
    + now rewrite string_app_nil_r.
Qed.

Lemma experience_fold_last exps last vars :
  snd (fold_left experience_step (exps ++ [last]) vars)
  = get_or (exp_duration last) "".
Proof.
  rewrite fold_left_app. cbn [fold_left]. apply experience_step_snd.
Qed.

Lemma experience_fold_nonempty exps t d d' :
  exps <> [] ->
  fold_left experience_step exps (t, d) = fold_left experience_step exps (t, d').
Proof.
  destruct exps as [| exp exps]; [congruence |]. intros _.
  cbn [fold_left]. now rewrite (experience_step_fst t d d').
Qed.

(** X17.  The loop over the experiences assigns the variable
    [duration], which the IDENTITY line of the prompt reads afterwards.
    With at least one experience, that line shows the duration of the
    last experience (empty when it has none) and the prompt does not
    depend on the duration of the education at all; the education's
    duration, or its default, is shown only when there is no
    experience. *)
Theorem prompt_duration_is_last_experience (data : Resume) :
  (forall (exps : list ResumeExperience) (last : ResumeExperience),
      res_experience data = Some (exps ++ [last])%list ->
      nth_error (system_prompt_lines data) 3
      = Some (identity_line data (get_or (exp_duration last) "")) /\
      forall d,
        create_system_prompt (with_education_duration d data)
        = create_system_prompt data) /\
  (get_or (res_experience data) [] = [] ->
   nth_error (system_prompt_lines data) 3
   = Some (identity_line data
             (get_or (edu_duration (get_or (res_education data) empty_education))
                "Duration not specified"))).
Proof.
  split.
  - intros exps last Hexp. split.
    + unfold system_prompt_lines. cbv zeta. rewrite Hexp.
      cbn [get_or nth_error]. rewrite experience_fold_last. reflexivity.
    + intros d. unfold create_system_prompt. f_equal.
      unfold system_prompt_lines, with_education_duration. cbv zeta.
      cbn [res_name res_education res_experience res_projects res_skills
           res_achievements].
      rewrite Hexp.
      cbn [get_or edu_degree edu_university edu_duration edu_cgpa
           edu_coursework].
      rewrite (@experience_fold_nonempty (exps ++ [last])%list ""
                 (get_or d "Duration not specified")
                 (get_or (edu_duration (get_or (res_education data)
                                          empty_education))
                    "Duration not specified")).
      * reflexivity.
      * destruct exps; discriminate.
  - intros Hnone. unfold system_prompt_lines. cbv zeta. rewrite Hnone.
    reflexivity.
Qed.

Lemma prompt_duration_is_last_experience_witness :
  nth_error (system_prompt_lines sample_resume) 3
  = Some "- B.Tech from University (), CGPA: 8.5".
Proof.
  destruct (prompt_duration_is_last_experience sample_resume) as [H _].
  destruct (H [mkResumeExperience (Some "Intern") (Some "Acme")
                 (Some "Jun 2024 - Aug 2024") (Some ["Built a tracker"])]
              (mkResumeExperience (Some "Volunteer") (Some "Club") None None)
              eq_refl) as [Hline _].
  exact Hline.
Defined.

(** X18.  The EXPERIENCE section of the prompt holds, in order, one
    block for each experience that has a duration: a heading with role,
    company and duration, then one line for each detail.  An experience
    whose duration is missing or empty leaves no trace in the
    section. *)
Theorem prompt_experience_section (data : Resume)
  (exps : list ResumeExperience) :
  res_experience data = Some exps ->
  nth_error (system_prompt_lines data) 7
  = Some (fold_right String.append ""
            (map experience_block (filter has_duration exps))).
Proof.
  intros Hexp. unfold system_prompt_lines. cbv zeta. rewrite Hexp.
  cbn [get_or nth_error]. rewrite experience_fold_text. reflexivity.
Qed.

Lemma prompt_experience_section_witness :
  nth_error (system_prompt_lines sample_resume) 7
  = Some ("• Intern at Acme (Jun 2024 - Aug 2024)" ++ nl
          ++ "  - Built a tracker" ++ nl).
Proof.
  rewrite (@prompt_experience_section sample_resume _ eq_refl). reflexivity.
Defined.
